(** * The job-queue node of ert: a shallow embedding of
      [res/job_queue/job_queue_node.py] and the properties of its monitor.

    A [JobQueueNode] drives one job: it submits it through a driver, polls
    the backend in a monitor loop that runs on a thread of its own, kills the
    job on request or when it runs too long, runs the caller's callbacks and
    decides about re-submission.

    The Python methods are embedded as computations of a small monad [M] that
    threads the machine state (the node, the history of the calls made to the
    outside world, the clock and the thread objects) and carries Python's
    control effects: a value, an early [return], a raised exception, or a call
    that never comes back.  Everything the node asks of the outside (driver,
    clock, callbacks) is answered by an oracle that sees the whole history, so
    the theorems hold for every deterministic backend, clock and callback. *)

From Stdlib Require Import ZArith List String Bool Lia.
From stdpp Require Import base list.
Import ListNotations.
Local Open Scope Z_scope.

(** ** Enumerations *)

(** Modelled from the spec: [res/job_queue/job_status_type_enum.py] is not
    part of the sources at hand; these are the queue statuses the data model
    lists, under the names [job_queue_node.py] uses for them. *)
Inductive JobStatusType : Type :=
  | JOB_QUEUE_WAITING
  | JOB_QUEUE_SUBMITTED
  | JOB_QUEUE_PENDING
  | JOB_QUEUE_RUNNING
  | JOB_QUEUE_DONE
  | JOB_QUEUE_EXIT
  | JOB_QUEUE_SUCCESS
  | JOB_QUEUE_FAILED
  | JOB_QUEUE_IS_KILLED
  | JOB_QUEUE_UNKNOWN.

(** Modelled from the spec: [res/job_queue/thread_status_type_enum.py] is
    missing too; the five worker statuses of the data model. *)
Inductive ThreadStatus : Type :=
  | READY
  | RUNNING
  | STOPPING
  | DONE
  | FAILED.

(** Modelled from the spec: [res/job_queue/job_submit_status_type_enum.py] is
    missing; a submission is OK or it failed, in the job or in the driver. *)
Inductive JobSubmitStatusType : Type :=
  | SUBMIT_OK
  | SUBMIT_JOB_FAIL
  | SUBMIT_DRIVER_FAIL.

#[global] Instance JobStatusType_eq_dec : EqDecision JobStatusType.
Proof. solve_decision. Defined.
#[global] Instance ThreadStatus_eq_dec : EqDecision ThreadStatus.
Proof. solve_decision. Defined.
#[global] Instance JobSubmitStatusType_eq_dec : EqDecision JobSubmitStatusType.
Proof. solve_decision. Defined.

(** The exceptions the node distinguishes: [run_done_callback] catches
    [ValueError], the monitor raises [AssertionError], and anything else a
    callback raises is just passed on. *)
Inductive exn : Type :=
  | ValueError
  | AssertionError
  | OtherError.

(** ** The outside world *)

(** The caller's callback arguments: the node never looks inside them. *)
Definition CallbackArgs : Type := list string.

(** A semaphore is known by its name; the node only enters and leaves it. *)
Definition Semaphore : Type := nat.

(** What the logger is asked to write (lines 192 and 194-197). *)
Inductive LogMessage : Type :=
  | MaxRuntimeReached (run_path : string)
  | TriedKilling (tried_killing : Z) (run_path : string).

(** One event per call that leaves the node.  A [Trace] is the history of
    these calls, the most recent one first. *)
Inductive Event : Type :=
  | EvSubmit (outcome : JobSubmitStatusType)
  | EvUpdateStatus (reported : JobStatusType)
  | EvKill (ok : bool)
  | EvTime (t : Z)
  | EvSleep (seconds : Z)
  | EvDoneCallback (args : CallbackArgs)
  | EvExitCallback (args : CallbackArgs)
  | EvTimeoutCallback (args : CallbackArgs)
  | EvLogInfo (msg : LogMessage)
  | EvLogWarning (msg : LogMessage)
  | EvSemaAcquire (sema : Semaphore)
  | EvSemaRelease (sema : Semaphore)
  | EvThreadStart (tid : nat).

Definition Trace : Type := list Event.

(** What a callback does when it is called: it returns a value, of which the
    node only uses the truth value, or it raises. *)
Inductive CbResult : Type :=
  | CbReturn (truthy : bool)
  | CbRaise (e : exn).

Definition Callback : Type := Trace -> CallbackArgs -> CbResult.

(** The driver, as far as the node can tell: what a submission answers and
    which queue status it leaves on the node, which queue status a poll
    finds, and whether a kill command went through. *)
Record Driver : Type := mkDriver {
  drv_submit : Trace -> JobStatusType -> JobSubmitStatusType * JobStatusType;
  drv_poll : Trace -> JobStatusType -> JobStatusType;
  drv_kill : Trace -> bool
}.

(** ** The node *)

(** The attributes of a [JobQueueNode].  The first two live in the C object
    behind it (read by [_get_status] and [_get_submit_attempt]); the others
    are the Python attributes set by [__init__].  [_thread] names a thread
    object of the machine state; [_mutex] is [true] while the lock is held.
    Times and durations are exact numbers of clock ticks. *)
Record JobQueueNode : Type := mkNode {
  c_status : JobStatusType;
  c_submit_attempt : Z;
  done_callback_function : Callback;
  exit_callback_function : Callback;
  callback_timeout : option Callback;
  callback_arguments : CallbackArgs;
  _thread_status : ThreadStatus;
  _thread : option nat;
  _mutex : bool;
  _tried_killing : Z;
  run_path : string;
  _max_runtime : option Z;
  _start_time : option Z;
  _end_time : option Z;
  _timed_out : bool
}.

Definition with_c_status (v : JobStatusType) (n : JobQueueNode) : JobQueueNode :=
  mkNode v (c_submit_attempt n) (done_callback_function n)
    (exit_callback_function n) (callback_timeout n) (callback_arguments n)
    (_thread_status n) (_thread n) (_mutex n) (_tried_killing n) (run_path n)
    (_max_runtime n) (_start_time n) (_end_time n) (_timed_out n).

Definition with_c_submit_attempt (v : Z) (n : JobQueueNode) : JobQueueNode :=
  mkNode (c_status n) v (done_callback_function n)
    (exit_callback_function n) (callback_timeout n) (callback_arguments n)
    (_thread_status n) (_thread n) (_mutex n) (_tried_killing n) (run_path n)
    (_max_runtime n) (_start_time n) (_end_time n) (_timed_out n).

Definition with_thread_status (v : ThreadStatus) (n : JobQueueNode) : JobQueueNode :=
  mkNode (c_status n) (c_submit_attempt n) (done_callback_function n)
    (exit_callback_function n) (callback_timeout n) (callback_arguments n)
    v (_thread n) (_mutex n) (_tried_killing n) (run_path n)
    (_max_runtime n) (_start_time n) (_end_time n) (_timed_out n).

Definition with_thread (v : option nat) (n : JobQueueNode) : JobQueueNode :=
  mkNode (c_status n) (c_submit_attempt n) (done_callback_function n)
    (exit_callback_function n) (callback_timeout n) (callback_arguments n)
    (_thread_status n) v (_mutex n) (_tried_killing n) (run_path n)
    (_max_runtime n) (_start_time n) (_end_time n) (_timed_out n).

Definition with_mutex_held (v : bool) (n : JobQueueNode) : JobQueueNode :=
  mkNode (c_status n) (c_submit_attempt n) (done_callback_function n)
    (exit_callback_function n) (callback_timeout n) (callback_arguments n)
    (_thread_status n) (_thread n) v (_tried_killing n) (run_path n)
    (_max_runtime n) (_start_time n) (_end_time n) (_timed_out n).

Definition with_tried_killing (v : Z) (n : JobQueueNode) : JobQueueNode :=
  mkNode (c_status n) (c_submit_attempt n) (done_callback_function n)
    (exit_callback_function n) (callback_timeout n) (callback_arguments n)
    (_thread_status n) (_thread n) (_mutex n) v (run_path n)
    (_max_runtime n) (_start_time n) (_end_time n) (_timed_out n).

Definition with_start_time (v : option Z) (n : JobQueueNode) : JobQueueNode :=
  mkNode (c_status n) (c_submit_attempt n) (done_callback_function n)
    (exit_callback_function n) (callback_timeout n) (callback_arguments n)
    (_thread_status n) (_thread n) (_mutex n) (_tried_killing n) (run_path n)
    (_max_runtime n) v (_end_time n) (_timed_out n).

Definition with_end_time (v : option Z) (n : JobQueueNode) : JobQueueNode :=
  mkNode (c_status n) (c_submit_attempt n) (done_callback_function n)
    (exit_callback_function n) (callback_timeout n) (callback_arguments n)
    (_thread_status n) (_thread n) (_mutex n) (_tried_killing n) (run_path n)
    (_max_runtime n) (_start_time n) v (_timed_out n).

Definition with_timed_out (v : bool) (n : JobQueueNode) : JobQueueNode :=
  mkNode (c_status n) (c_submit_attempt n) (done_callback_function n)
    (exit_callback_function n) (callback_timeout n) (callback_arguments n)
    (_thread_status n) (_thread n) (_mutex n) (_tried_killing n) (run_path n)
    (_max_runtime n) (_start_time n) (_end_time n) v.

(** ** Threads and the machine state *)

(** Where a monitor thread stands: it has not run a line of [_job_monitor]
    yet, or it is at the head of the [while] loop with its local
    [current_status]. *)
Inductive MonitorPoint : Type :=
  | AtEntry
  | AtLoopHead (current_status : JobStatusType).

(** A [threading.Thread] whose target is [_job_monitor]: whether it is
    alive, where it stands, and the arguments it was created with. *)
Record Thread : Type := mkThread {
  th_alive : bool;
  th_at : MonitorPoint;
  th_driver : Driver;
  th_pool_sema : Semaphore;
  th_max_submit : Z
}.

(** The machine state: the node, the history, the clock (what [time.time()]
    answers after a given history) and the thread objects created so far,
    a thread's identifier being its position. *)
Record State : Type := mkState {
  node : JobQueueNode;
  trace : Trace;
  clock : Trace -> Z;
  threads : list Thread
}.

Definition with_node (n : JobQueueNode) (s : State) : State :=
  mkState n (trace s) (clock s) (threads s).

Definition with_trace (tr : Trace) (s : State) : State :=
  mkState (node s) tr (clock s) (threads s).

Definition with_threads (ths : list Thread) (s : State) : State :=
  mkState (node s) (trace s) (clock s) ths.

(** ** The monad *)

(** How a Python statement ends: normally with a value, with a [return] out
    of the enclosing function, with an exception, or never. *)
Inductive Res (A : Type) : Type :=
  | Ok (a : A)
  | Return_
  | Raise (e : exn)
  | Diverge.

Arguments Ok {A} a.
Arguments Return_ {A}.
Arguments Raise {A} e.
Arguments Diverge {A}.

Definition M (A : Type) : Type := State -> Res A * State.

Definition ret {A} (a : A) : M A := fun s => (Ok a, s).

Definition bind {A B} (m : M A) (k : A -> M B) : M B := fun s =>
  match m s with
  | (Ok a, s') => k a s'
  | (Return_, s') => (Return_, s')
  | (Raise e, s') => (Raise e, s')
  | (Diverge, s') => (Diverge, s')
  end.

Declare Scope py_scope.
Delimit Scope py_scope with py.
Notation "x <- m ;; k" := (bind m (fun x => k))
  (at level 100, m at next level, right associativity) : py_scope.
Notation "m ;; k" := (bind m (fun _ => k))
  (at level 100, right associativity) : py_scope.
Local Open Scope py_scope.

Definition return_ {A} : M A := fun s => (Return_, s).
Definition raise {A} (e : exn) : M A := fun s => (Raise e, s).
Definition diverge {A} : M A := fun s => (Diverge, s).

(** A function body: a [return] inside it ends the function normally. *)
Definition def_ (body : M unit) : M unit := fun s =>
  match body s with
  | (Return_, s') => (Ok tt, s')
  | r => r
  end.

(** [try: body  except ValueError: handler]. *)
Definition try_except_ValueError {A} (body handler : M A) : M A := fun s =>
  match body s with
  | (Raise ValueError, s') => handler s'
  | r => r
  end.

Definition when (b : bool) (m : M unit) : M unit := if b then m else ret tt.

Definition get_node : M JobQueueNode := fun s => (Ok (node s), s).
Definition modify_node (f : JobQueueNode -> JobQueueNode) : M unit :=
  fun s => (Ok tt, with_node (f (node s)) s).
Definition get_trace : M Trace := fun s => (Ok (trace s), s).
Definition emit (e : Event) : M unit :=
  fun s => (Ok tt, with_trace (e :: trace s) s).

(** [with self._mutex: body].  The lock is not re-entrant: taking it while it
    is held never comes back.  It is released however the body ends. *)
Definition with_mutex {A} (body : M A) : M A := fun s =>
  if _mutex (node s) then (Diverge, s)
  else
    let '(r, s') := body (with_node (with_mutex_held true (node s)) s) in
    (r, with_node (with_mutex_held false (node s')) s').

(** [with pool_sema: body]: a slot is taken and given back however the body
    ends. *)
Definition with_sema {A} (pool_sema : Semaphore) (body : M A) : M A := fun s =>
  let '(r, s') := body (with_trace (EvSemaAcquire pool_sema :: trace s) s) in
  (r, with_trace (EvSemaRelease pool_sema :: trace s') s').

(** ** Calls that leave the node *)

(** [time.time()]: the clock is read, and the reading joins the history. *)
Definition time_time : M Z := fun s =>
  let t := clock s (trace s) in
  (Ok t, with_trace (EvTime t :: trace s) s).

(** [time.sleep(seconds)]. *)
Definition time_sleep (seconds : Z) : M unit := emit (EvSleep seconds).

Definition logger_info (msg : LogMessage) : M unit := emit (EvLogInfo msg).
Definition logger_warning (msg : LogMessage) : M unit := emit (EvLogWarning msg).

(** Calling a callback with arguments: the call joins the history under the
    event [ev], then the callback returns or raises. *)
Definition call (f : Callback) (ev : CallbackArgs -> Event)
    (args : CallbackArgs) : M bool := fun s =>
  let s' := with_trace (ev args :: trace s) s in
  match f (trace s) args with
  | CbReturn truthy => (Ok truthy, s')
  | CbRaise e => (Raise e, s')
  end.

(** *** The C functions behind the node (lines 32-49) *)

(** [job_queue_node_get_status] and [job_queue_node_set_status] read and
    write the queue status; [job_queue_node_get_submit_attempt] reads the
    counter. *)
Definition _get_status : M JobStatusType := n <- get_node ;; ret (c_status n).
Definition _set_status (new_status : JobStatusType) : M unit :=
  modify_node (with_c_status new_status).
Definition _get_submit_attempt : M Z := n <- get_node ;; ret (c_submit_attempt n).

(** Modelled from the spec: [job_queue_node_submit_simple] is C code outside
    the sources at hand.  A submission hands the job to the driver, counts
    one more attempt whatever the outcome, and leaves on the node the queue
    status the driver gives it. *)
Definition _submit (driver : Driver) : M JobSubmitStatusType := fun s =>
  let n := node s in
  let '(outcome, st) := drv_submit driver (trace s) (c_status n) in
  (Ok outcome,
   with_trace (EvSubmit outcome :: trace s)
     (with_node (with_c_submit_attempt (c_submit_attempt n + 1)
                   (with_c_status st n)) s)).

(** Modelled from the spec: [job_queue_node_update_status_simple] is C code
    outside the sources at hand.  A poll asks the driver and stores the
    normalized status it reports; the answer tells whether it changed. *)
Definition _update_status (driver : Driver) : M bool := fun s =>
  let n := node s in
  let st := drv_poll driver (trace s) (c_status n) in
  (Ok (bool_decide (st <> c_status n)),
   with_trace (EvUpdateStatus st :: trace s) (with_node (with_c_status st n) s)).

(** Modelled from the spec: [job_queue_node_kill_simple] is C code outside
    the sources at hand.  Killing calls the driver's kill, which answers
    whether the command went through; it does not itself change the queue
    status, which the next poll discovers. *)
Definition _run_kill (driver : Driver) : M bool :=
  tr <- get_trace ;;
  let ok := drv_kill driver tr in
  emit (EvKill ok) ;;
  ret ok.

(** ** The methods of [JobQueueNode] *)

(** Lines 108-111. *)
Definition timed_out : M bool :=
  with_mutex (n <- get_node ;; ret (_timed_out n)).

(** Lines 113-123. *)
Definition submit_attempt : M Z := _get_submit_attempt.
Definition status : M JobStatusType := _get_status.
Definition thread_status : M ThreadStatus :=
  n <- get_node ;; ret (_thread_status n).

(** Line 277. *)
Definition _set_thread_status (new_status : ThreadStatus) : M unit :=
  modify_node (with_thread_status new_status).

(** Line 125. *)
Definition submit (driver : Driver) : M JobSubmitStatusType := _submit driver.

(** Lines 128-139. *)
Definition run_done_callback : M bool :=
  callback_status <-
    try_except_ValueError
      (n <- get_node ;;
       callback_status <-
         call (done_callback_function n) EvDoneCallback (callback_arguments n) ;;
       (if callback_status : bool
        then _set_status JOB_QUEUE_SUCCESS
        else _set_status JOB_QUEUE_EXIT) ;;
       ret callback_status)
      (let callback_status := false in
       _set_status JOB_QUEUE_FAILED ;;
       ret callback_status) ;;
  ret callback_status.

(** Lines 141-142. *)
Definition run_exit_callback : M bool :=
  n <- get_node ;;
  call (exit_callback_function n) EvExitCallback (callback_arguments n).

(** The membership test of lines 146-151. *)
Definition in_running_statuses (st : JobStatusType) : bool :=
  match st with
  | JOB_QUEUE_PENDING | JOB_QUEUE_SUBMITTED
  | JOB_QUEUE_RUNNING | JOB_QUEUE_UNKNOWN => true
  | _ => false
  end.

(** Lines 144-151: [given_status or self.status]; an enumeration value
    counts as true, so a given status is the one that is tested. *)
Definition is_running (given_status : option JobStatusType) : M bool :=
  st <- match given_status with
        | Some given => ret given
        | None => status
        end ;;
  ret (in_running_statuses st).

(** Lines 153-161. *)
Definition runtime : M Z :=
  n <- get_node ;;
  match _start_time n with
  | None => ret 0
  | Some start_time =>
      match _end_time n with
      | None => now <- time_time ;; ret (now - start_time)
      | Some end_time => ret (end_time - start_time)
      end
  end.

(** Lines 163-166; [or] and [and] evaluate their right operand only when
    the left one does not decide. *)
Definition _should_be_killed : M bool :=
  ts <- thread_status ;;
  if bool_decide (ts = STOPPING) then ret true
  else
    n <- get_node ;;
    match _max_runtime n with
    | None => ret false
    | Some max_runtime => rt <- runtime ;; ret (max_runtime <=? rt)
    end.

(** Lines 235-237. *)
Definition _kill (driver : Driver) : M unit :=
  _run_kill driver ;;
  modify_node (fun n => with_tried_killing (_tried_killing n + 1) n).

(** Lines 273-275. *)
Definition update_status (driver : Driver) : M unit :=
  st <- status ;;
  if bool_decide (st <> JOB_QUEUE_WAITING)
  then _update_status driver ;; ret tt
  else ret tt.

(** The condition of line 187, [self._max_runtime and self.runtime >=
    self._max_runtime]: [None] and [0] are false, and then the runtime is
    not read. *)
Definition max_runtime_reached : M bool :=
  n <- get_node ;;
  match _max_runtime n with
  | None => ret false
  | Some max_runtime =>
      if max_runtime =? 0 then ret false
      else rt <- runtime ;; ret (max_runtime <=? rt)
  end.

(** Lines 187-201, what follows a kill once the condition of line 187
    holds: the throttled log line, the timeout callback, the flag. *)
Definition _job_monitor_timed_out : M unit :=
  n <- get_node ;;
  (if _tried_killing n =? 1
   then logger_info (MaxRuntimeReached (run_path n))
   else if _tried_killing n mod 100 =? 0
   then logger_warning (TriedKilling (_tried_killing n) (run_path n))
   else ret tt) ;;
  match callback_timeout n with
  | Some callback => call callback EvTimeoutCallback (callback_arguments n) ;; ret tt
  | None => ret tt
  end ;;
  with_mutex (modify_node (with_timed_out true)).

(** Lines 178-184, the first half of the body of the [while] loop: the start
    time is recorded when [RUNNING] is seen for the first time, then the
    monitor sleeps and polls. *)
Definition _job_monitor_poll (driver : Driver)
    (current_status : JobStatusType) : M unit :=
  n <- get_node ;;
  when (bool_decide (_start_time n = None)
        && bool_decide (current_status = JOB_QUEUE_RUNNING))
    (now <- time_time ;; modify_node (with_start_time (Some now))) ;;
  time_sleep 1 ;;
  update_status driver.

(** Lines 185-201, the second half: the kill policy. *)
Definition _job_monitor_kill_policy (driver : Driver) : M unit :=
  kill <- _should_be_killed ;;
  when kill
    (_kill driver ;;
     reached <- max_runtime_reached ;;
     when reached _job_monitor_timed_out).

(** Lines 178-203, one pass through the body of the [while] loop; the
    answer is the new [current_status]. *)
Definition _job_monitor_iteration (driver : Driver)
    (current_status : JobStatusType) : M JobStatusType :=
  _job_monitor_poll driver current_status ;;
  _job_monitor_kill_policy driver ;;
  status.

(** Lines 177-203, the [while] loop; [fuel] bounds the number of times its
    condition is evaluated, and a loop that needs more never comes back. *)
Fixpoint _job_monitor_loop (fuel : nat) (driver : Driver)
    (current_status : JobStatusType) : M JobStatusType :=
  match fuel with
  | O => diverge
  | S fuel' =>
      running <- is_running (Some current_status) ;;
      if running : bool then
        current_status' <- _job_monitor_iteration driver current_status ;;
        _job_monitor_loop fuel' driver current_status'
      else ret current_status
  end.

(** Lines 208-210: the success callback, for a job that is done, within
    the limiter of concurrent callbacks. *)
Definition _job_monitor_callback (pool_sema : Semaphore)
    (current_status : JobStatusType) : M unit :=
  when (bool_decide (current_status = JOB_QUEUE_DONE))
    (with_sema pool_sema (run_done_callback ;; ret tt)).

(** Lines 212-233: the queue status is read again after the callback and
    the job is resolved. *)
Definition _job_monitor_resolve (max_submit : Z) : M unit :=
  (* refresh cached status after running the callback *)
  current_status <- status ;;
  match current_status with
  | JOB_QUEUE_SUCCESS => ret tt
  | JOB_QUEUE_EXIT =>
      attempt <- submit_attempt ;;
      if attempt <? max_submit then
        _set_thread_status READY ;;
        return_
      else
        _set_status JOB_QUEUE_FAILED ;;
        run_exit_callback ;; ret tt
  | JOB_QUEUE_IS_KILLED => ret tt
  | JOB_QUEUE_FAILED => run_exit_callback ;; ret tt
  | _ =>
      _set_thread_status FAILED ;;
      raise AssertionError
  end ;;
  _set_thread_status DONE.

(** Lines 207-233, the terminal handling under the node's lock. *)
Definition _job_monitor_terminal (pool_sema : Semaphore) (max_submit : Z)
    (current_status : JobStatusType) : M unit :=
  with_mutex
    (_job_monitor_callback pool_sema current_status ;;
     _job_monitor_resolve max_submit).

(** Lines 205-233: what the monitor does once the loop is over. *)
Definition _job_monitor_exit (pool_sema : Semaphore) (max_submit : Z)
    (current_status : JobStatusType) : M unit :=
  now <- time_time ;;
  modify_node (with_end_time (Some now)) ;;
  _job_monitor_terminal pool_sema max_submit current_status.

(** Lines 170-172: the submission and what a failed one does. *)
Definition _job_monitor_submit (driver : Driver) : M unit :=
  submit_status <- submit driver ;;
  when (bool_decide (submit_status <> SUBMIT_OK))
    (_set_status JOB_QUEUE_DONE).

(** Lines 174-233: the monitor after the submission. *)
Definition _job_monitor_watch (fuel : nat) (driver : Driver)
    (pool_sema : Semaphore) (max_submit : Z) : M unit :=
  update_status driver ;;
  current_status <- status ;;
  current_status <- _job_monitor_loop fuel driver current_status ;;
  _job_monitor_exit pool_sema max_submit current_status.

(** Lines 168-233. *)
Definition _job_monitor (fuel : nat) (driver : Driver)
    (pool_sema : Semaphore) (max_submit : Z) : M unit :=
  def_
    (_job_monitor_submit driver ;;
     _job_monitor_watch fuel driver pool_sema max_submit).

(** The rest of [_job_monitor] for a thread that stands at [point]. *)
Definition _job_monitor_from (point : MonitorPoint) (fuel : nat)
    (driver : Driver) (pool_sema : Semaphore) (max_submit : Z) : M unit :=
  match point with
  | AtEntry => _job_monitor fuel driver pool_sema max_submit
  | AtLoopHead current_status =>
      def_
        (current_status <- _job_monitor_loop fuel driver current_status ;;
         _job_monitor_exit pool_sema max_submit current_status)
  end.

(** *** Thread objects *)

(** [Thread(target=self._job_monitor, args=...)]: a new thread object, not
    alive yet; the answer is its identifier. *)
Definition Thread_new (driver : Driver) (pool_sema : Semaphore)
    (max_submit : Z) : M nat := fun s =>
  (Ok (length (threads s)),
   with_threads (threads s ++ [mkThread false AtEntry driver pool_sema max_submit]) s).

Definition set_alive (alive : bool) (t : Thread) : Thread :=
  mkThread alive (th_at t) (th_driver t) (th_pool_sema t) (th_max_submit t).

(** [thread.start()]. *)
Definition Thread_start (tid : nat) : M unit := fun s =>
  match threads s !! tid with
  | Some t =>
      (Ok tt,
       with_trace (EvThreadStart tid :: trace s)
         (with_threads (<[tid := set_alive true t]> (threads s)) s))
  | None => (Raise OtherError, s)
  end.

(** [thread.is_alive()]. *)
Definition Thread_is_alive (tid : nat) : M bool := fun s =>
  match threads s !! tid with
  | Some t => (Ok (th_alive t), s)
  | None => (Raise OtherError, s)
  end.

(** [thread.join()]: the caller is held until the thread is over, that is
    until the rest of its [_job_monitor] has run; however the monitor ends,
    by its last line, a [return] or an exception, the thread is dead then
    and the caller goes on.  A monitor that never ends holds the caller for
    ever. *)
Definition Thread_join (fuel : nat) (tid : nat) : M unit := fun s =>
  match threads s !! tid with
  | Some t =>
      if th_alive t then
        match _job_monitor_from (th_at t) fuel (th_driver t)
                (th_pool_sema t) (th_max_submit t) s with
        | (Diverge, s') => (Diverge, s')
        | (_, s') =>
            (Ok tt, with_threads (<[tid := set_alive false t]> (threads s')) s')
        end
      else (Ok tt, s)
  | None => (Raise OtherError, s)
  end.

(** Lines 269-271. *)
Definition wait_for (fuel : nat) : M unit :=
  n <- get_node ;;
  match _thread n with
  | Some tid =>
      alive <- Thread_is_alive tid ;;
      if alive : bool then Thread_join fuel tid else ret tt
  | None => ret tt
  end.

(** Lines 239-252; [fuel] bounds the monitor loop of the thread that
    [wait_for] may have to wait for. *)
Definition run (fuel : nat) (driver : Driver) (pool_sema : Semaphore)
    (max_submit : Z) : M unit :=
  def_
    ((* Prevent multiple threads working on the same object *)
     wait_for fuel ;;
     (* Do not start if already kill signal is sent *)
     ts <- thread_status ;;
     (if bool_decide (ts = STOPPING) then
        _set_thread_status DONE ;;
        return_
      else ret tt) ;;
     _set_thread_status RUNNING ;;
     modify_node (with_start_time None) ;;
     tid <- Thread_new driver pool_sema max_submit ;;
     modify_node (with_thread (Some tid)) ;;
     Thread_start tid).

Definition assert_ (b : bool) : M unit :=
  if b then ret tt else raise AssertionError.

(** Lines 254-267. *)
Definition stop : M unit :=
  with_mutex
    (ts <- thread_status ;;
     (if bool_decide (ts = RUNNING) then _set_thread_status STOPPING
      else if bool_decide (ts = READY) then
        (* clean-up to get the correct status after being stopped by user *)
        _set_thread_status DONE ;;
        _set_status JOB_QUEUE_FAILED
      else ret tt) ;;
     ts <- thread_status ;;
     assert_ (bool_decide (ts = DONE) || bool_decide (ts = STOPPING)
              || bool_decide (ts = FAILED))).

(** Lines 51-103: the node as [__init__] leaves it.  The C object starts
    waiting, with no submission attempt. *)
Definition new_node (done_callback exit_callback : Callback)
    (args : CallbackArgs) (path : string) (max_runtime : option Z)
    (timeout_callback : option Callback) : JobQueueNode :=
  mkNode JOB_QUEUE_WAITING 0 done_callback exit_callback timeout_callback args
    READY None false 0 path max_runtime None None false.

(** * Vocabulary of the properties *)

(** ** Reading the history *)

Definition is_kill (e : Event) : bool :=
  match e with EvKill _ => true | _ => false end.
Definition is_submit (e : Event) : bool :=
  match e with EvSubmit _ => true | _ => false end.
Definition is_done_callback (e : Event) : bool :=
  match e with EvDoneCallback _ => true | _ => false end.
Definition is_exit_callback (e : Event) : bool :=
  match e with EvExitCallback _ => true | _ => false end.
Definition is_timeout_callback (e : Event) : bool :=
  match e with EvTimeoutCallback _ => true | _ => false end.
Definition is_thread_start (e : Event) : bool :=
  match e with EvThreadStart _ => true | _ => false end.

(** How many events of a kind the history holds. *)
Fixpoint count_events (kind : Event -> bool) (tr : Trace) : nat :=
  match tr with
  | [] => O
  | e :: tr' => if kind e then S (count_events kind tr') else count_events kind tr'
  end.

(** The value [runtime] computes when the clock reads [now]. *)
Definition runtime_at (n : JobQueueNode) (now : Z) : Z :=
  match _start_time n with
  | None => 0
  | Some start_time =>
      match _end_time n with
      | None => now - start_time
      | Some end_time => end_time - start_time
      end
  end.

(** The test of line 165 when the clock reads [now], on the value [runtime]
    computes: a maximum runtime is set and that value has reached it. *)
Definition runtime_exceeded (n : JobQueueNode) (now : Z) : Prop :=
  exists max_runtime, _max_runtime n = Some max_runtime /\ max_runtime <= runtime_at n now.

(** The elapsed runtime in the words of the spec, "elapsed seconds since
    start; zero if not yet started", when the clock reads [now].  It does
    not look at the end time. *)
Definition spec_elapsed_runtime (n : JobQueueNode) (now : Z) : Z :=
  match _start_time n with
  | None => 0
  | Some start_time => now - start_time
  end.

(** The runtime condition in the words of the spec: "a maximum runtime is
    configured and elapsed runtime has reached or exceeded it". *)
Definition spec_runtime_condition (n : JobQueueNode) (now : Z) : Prop :=
  exists max_runtime,
    _max_runtime n = Some max_runtime /\
    max_runtime <= spec_elapsed_runtime n now.

(** The machine when line 187 looks at the runtime again: the test of line
    185 and the kill of line 186 are made. *)
Definition at_second_look (driver : Driver) (s : State) : State :=
  snd (bind _should_be_killed (fun _ => _kill driver) s).

(** A clock that never runs backwards, whatever happens. *)
Definition clock_monotone (c : Trace -> Z) : Prop :=
  forall e tr, c tr <= c (e :: tr).

(** A callback that never raises. *)
Definition returns_normally (f : Callback) : Prop :=
  forall tr args, exists truthy, f tr args = CbReturn truthy.


(** The node's lock taken, as the terminal handling finds the state. *)
Definition locked (s : State) : State :=
  with_node (with_mutex_held true (node s)) s.

(** The statuses the monitor loop sees at its head, one per evaluation of
    its condition, for a loop run with [fuel]. *)
Fixpoint _job_monitor_observed (fuel : nat) (driver : Driver)
    (current_status : JobStatusType) (s : State) : list JobStatusType :=
  match fuel with
  | O => []
  | S fuel' =>
      current_status ::
        (if in_running_statuses current_status then
           match _job_monitor_iteration driver current_status s with
           | (Ok current_status', s') =>
               _job_monitor_observed fuel' driver current_status' s'
           | _ => []
           end
         else [])
  end.

(** The only thread that may be alive is the one the node holds. *)
Definition own_thread_only (s : State) : Prop :=
  forall tid t,
    threads s !! tid = Some t -> th_alive t = true -> _thread (node s) = Some tid.

(** The thread the node holds, if any, is a thread of the machine. *)
Definition thread_known (s : State) : Prop :=
  forall tid, _thread (node s) = Some tid -> is_Some (threads s !! tid).

(** No thread is alive. *)
Definition all_threads_over (s : State) : Prop :=
  forall tid t, threads s !! tid = Some t -> th_alive t = false.

(** How many threads are alive. *)
Definition alive_threads (s : State) : nat :=
  length (List.filter th_alive (threads s)).



(** * Sample nodes, drivers and clocks *)

Module Sample.

Definition args : CallbackArgs := ["run_arg"%string; "res_config"%string].
Definition pool : Semaphore := 0%nat.
Definition path : string := "simulations/realization-0/iter-0".

(** Callbacks: one that accepts the job, one that rejects it, one that
    finds it invalid, and one that just takes note. *)
Definition accept : Callback := fun _ _ => CbReturn true.
Definition reject : Callback := fun _ _ => CbReturn false.
Definition invalid : Callback := fun _ _ => CbRaise ValueError.
Definition notify : Callback := fun _ _ => CbReturn false.

(** A callback that breaks down. *)
Definition broken : Callback := fun _ _ => CbRaise OtherError.

Definition is_sleep (e : Event) : bool :=
  match e with EvSleep _ => true | _ => false end.
Definition is_poll (e : Event) : bool :=
  match e with EvUpdateStatus _ => true | _ => false end.

(** A clock that reads 1000 at first and one more after each sleep. *)
Definition wall_clock (tr : Trace) : Z :=
  1000 + Z.of_nat (count_events is_sleep tr).

(** A clock that is set back by one at every call that leaves the node. *)
Definition rewinding_clock (tr : Trace) : Z :=
  1000 - Z.of_nat (length tr).

(** A driver that accepts every job and reports the same status for ever. *)
Definition always (st : JobStatusType) : Driver :=
  mkDriver (fun _ _ => (SUBMIT_OK, JOB_QUEUE_SUBMITTED))
           (fun _ _ => st)
           (fun _ => true).

(** A driver that refuses every job and knows nothing about it later. *)
Definition refusing : Driver :=
  mkDriver (fun _ st => (SUBMIT_DRIVER_FAIL, st))
           (fun _ st => st)
           (fun _ => false).

(** A driver whose job runs until it is killed. *)
Definition killable : Driver :=
  mkDriver (fun _ _ => (SUBMIT_OK, JOB_QUEUE_SUBMITTED))
           (fun tr _ =>
              match count_events is_kill tr with
              | O => JOB_QUEUE_RUNNING
              | S _ => JOB_QUEUE_IS_KILLED
              end)
           (fun _ => true).

(** A driver whose job runs for two polls and exits at the first
    attempt, and runs for ever at every later one. *)
Definition flaky : Driver :=
  mkDriver (fun _ _ => (SUBMIT_OK, JOB_QUEUE_SUBMITTED))
           (fun tr _ =>
              match count_events is_submit tr with
              | O | S O =>
                  if (count_events is_poll tr <? 2)%nat
                  then JOB_QUEUE_RUNNING else JOB_QUEUE_EXIT
              | _ => JOB_QUEUE_RUNNING
              end)
           (fun _ => true).

(** A fresh node with the given callbacks and limit, and the machine that
    holds nothing else. *)
Definition fresh (done_callback : Callback) (max_runtime : option Z)
    (timeout_callback : option Callback) : State :=
  mkState (new_node done_callback notify args path max_runtime timeout_callback)
    [] wall_clock [].

(** A node in the middle of its monitor loop: the worker is running and
    the job was submitted once and is in queue status [st]. *)
Definition monitored (st : JobStatusType) (max_runtime : option Z)
    (timeout_callback : option Callback) : State :=
  mkState
    (mkNode st 1 accept notify timeout_callback args RUNNING None false 0
       path max_runtime None None false)
    [EvSubmit SUBMIT_OK] wall_clock [].

(** A node in the middle of its monitor loop whose job has been running
    since 990, ten seconds before the clock's first reading. *)
Definition overdue (max_runtime : option Z)
    (timeout_callback : option Callback) : State :=
  mkState
    (mkNode JOB_QUEUE_RUNNING 1 accept notify timeout_callback args RUNNING
       None false 0 path max_runtime (Some 990) None false)
    [EvSubmit SUBMIT_OK] wall_clock [].

(** The same in a machine whose clock is being set back, for a job that
    has been running since 992. *)
Definition rewinding (max_runtime : option Z)
    (timeout_callback : option Callback) : State :=
  mkState
    (mkNode JOB_QUEUE_RUNNING 1 accept notify timeout_callback args RUNNING
       None false 0 path max_runtime (Some 992) None false)
    [EvSubmit SUBMIT_OK] rewinding_clock [].

(** A node whose monitor is done with the loop: the job was submitted
    [attempts] times and is in queue status [st]. *)
Definition finished (st : JobStatusType) (attempts : Z)
    (done_callback exit_callback : Callback) : State :=
  mkState
    (mkNode st attempts done_callback exit_callback None args RUNNING None
       false 0 path None (Some 1001) (Some 1003) false)
    [] wall_clock [].



End Sample.

(** The retry of a job whose first attempt exited: the node is run, and run
  again by the queue, which waits for the monitor of the first attempt;
  the second attempt is followed up to the head of its monitor loop. *)
Module Retry.

Definition max_runtime : Z := 5.
Definition max_submit : Z := 2.

Definition first_run : Res unit * State :=
  run 10 Sample.flaky Sample.pool max_submit
    (Sample.fresh Sample.accept (Some max_runtime) None).

Definition second_run : Res unit * State :=
  run 10 Sample.flaky Sample.pool max_submit (snd first_run).

Definition at_loop : State :=
  snd (update_status Sample.flaky
         (snd (_job_monitor_submit Sample.flaky (snd second_run)))).

End Retry.


(** * Vocabulary of further properties *)

(** What a monitor never undoes and never touches, between a state [s] and a
    later state [s']: the clock, the lock and the configuration of the node
    are the same, a timeout flag that is set stays set, a recorded start
    time stays the same, and the count of kill attempts has grown by the
    number of kill calls made to the driver. *)
Definition monitor_keeps (s s' : State) : Prop :=
  clock s' = clock s /\
  _mutex (node s') = _mutex (node s) /\
  (done_callback_function (node s') = done_callback_function (node s) /\
   exit_callback_function (node s') = exit_callback_function (node s) /\
   callback_timeout (node s') = callback_timeout (node s) /\
   callback_arguments (node s') = callback_arguments (node s) /\
   run_path (node s') = run_path (node s) /\
   _max_runtime (node s') = _max_runtime (node s)) /\
  (_timed_out (node s) = true -> _timed_out (node s') = true) /\
  (forall start_time,
      _start_time (node s) = Some start_time ->
      _start_time (node s') = Some start_time) /\
  _tried_killing (node s') - _tried_killing (node s)
    = Z.of_nat (count_events is_kill (trace s'))
      - Z.of_nat (count_events is_kill (trace s)).

Definition always_keeps {A} (m : M A) : Prop :=
  forall s, monitor_keeps s (snd (m s)).

(** The monitor loop calls neither the submission nor the success and
    failure callbacks. *)
Definition loop_calls (s s' : State) : Prop :=
  count_events is_submit (trace s') = count_events is_submit (trace s) /\
  count_events is_done_callback (trace s')
    = count_events is_done_callback (trace s) /\
  count_events is_exit_callback (trace s')
    = count_events is_exit_callback (trace s).

(** What follows the loop does not submit, and calls each of the two
    callbacks once at most. *)
Definition exit_calls (s s' : State) : Prop :=
  count_events is_submit (trace s') = count_events is_submit (trace s) /\
  (count_events is_done_callback (trace s')
     <= S (count_events is_done_callback (trace s)))%nat /\
  (count_events is_done_callback (trace s)
     <= count_events is_done_callback (trace s'))%nat /\
  (count_events is_exit_callback (trace s')
     <= S (count_events is_exit_callback (trace s)))%nat /\
  (count_events is_exit_callback (trace s)
     <= count_events is_exit_callback (trace s'))%nat.

(** A recorded start time is not later than what the clock reads now. *)
Definition start_not_later (s : State) : Prop :=
  forall start_time,
    _start_time (node s) = Some start_time -> start_time <= clock s (trace s).

(** * The simulation context: [src/ert/simulator/simulation_context.py]

    The caller that configures the queue and answers questions about single
    realizations.  Its methods that change nothing are embedded as pure
    functions; the queue manager, which is not part of the sources at hand,
    is what it answers at the time of the call. *)

Module Simulation.

(** [src/ert/run_arg.py].  A [RunStatus] and the ensemble storage are kept by
    a number: these functions never look at them. *)
Definition RunStatus : Type := Z.
Definition EnsembleAccessor : Type := Z.

Record RunArg : Type := mkRunArg {
  run_id : string;
  ensemble_storage : EnsembleAccessor;
  iens : Z;
  itr : Z;
  runpath : string;
  job_name : string;
  active : bool;
  queue_index : option Z;
  submitted : bool;
  run_status : option RunStatus
}.

(** The two exceptions these methods raise: [KeyError] with the number of
    the realization that was asked for, and [ValueError]. *)
Inductive exception : Type :=
  | KeyError (realization : Z)
  | ValueError (message : string).

Inductive result (A : Type) : Type :=
  | Returns (a : A)
  | Raises (e : exception).

Arguments Returns {A} a.
Arguments Raises {A} e.

(** What the queue manager answers about the job at a queue index. *)
Record JobQueueManager : Type := mkJobQueueManager {
  didJobSucceed : Z -> bool;
  isJobComplete : Z -> bool;
  isJobWaiting : Z -> bool;
  getJobStatus : Z -> JobStatusType
}.

(** The attributes the methods below read: the run context, as the sequence
    of run arguments its iteration yields, and the queue manager. *)
Record SimulationContext : Type := mkSimulationContext {
  _run_context : list (option RunArg);
  _queue_manager : JobQueueManager
}.

(** Lines 43-45 of [_run_forward_model]: a configured maximum runtime of 0
    stands for none. *)
Definition forward_model_max_runtime (configured : option Z) : option Z :=
  match configured with
  | Some max_runtime => if max_runtime =? 0 then None else Some max_runtime
  | None => None
  end.

(** Line 107, [max_runtime or 0], the argument of [set_max_job_duration]. *)
Definition max_job_duration (configured : option Z) : Z :=
  match configured with
  | Some max_runtime => if max_runtime =? 0 then 0 else max_runtime
  | None => 0
  end.

(** Lines 148-150, the loop of [get_run_args] over the run arguments. *)
Fixpoint find_run_arg (wanted : Z) (run_args : list (option RunArg))
    : option RunArg :=
  match run_args with
  | [] => None
  | run_arg :: rest =>
      match run_arg with
      | Some found =>
          if iens found =? wanted then Some found else find_run_arg wanted rest
      | None => find_run_arg wanted rest
      end
  end.

(** Lines 141-151. *)
Definition get_run_args (self : SimulationContext) (wanted : Z) : result RunArg :=
  match find_run_arg wanted (_run_context self) with
  | Some run_arg => Returns run_arg
  | None => Raises (KeyError wanted)
  end.

(** Lines 184-188. *)
Definition didRealizationSucceed (self : SimulationContext) (wanted : Z)
    : result bool :=
  match get_run_args self wanted with
  | Returns run_arg =>
      match queue_index run_arg with
      | None => Raises (ValueError "Queue index not set")
      | Some index => Returns (didJobSucceed (_queue_manager self) index)
      end
  | Raises e => Raises e
  end.

(** Lines 190-193. *)
Definition didRealizationFail (self : SimulationContext) (wanted : Z)
    : result bool :=
  match didRealizationSucceed self wanted with
  | Returns succeeded => Returns (negb succeeded)
  | Raises e => Raises e
  end.

(** Lines 195-203. *)
Definition isRealizationFinished (self : SimulationContext) (wanted : Z)
    : result bool :=
  match get_run_args self wanted with
  | Returns run_arg =>
      match queue_index run_arg with
      | Some index => Returns (isJobComplete (_queue_manager self) index)
      | None => (* job was not submitted *) Returns false
      end
  | Raises e => Raises e
  end.

(** Lines 223-254; [load] is [ForwardModelStatus.load], which reads the
    progress file of a run path or finds none. *)
Definition job_progress {ForwardModelStatus : Type}
    (load : string -> option ForwardModelStatus)
    (self : SimulationContext) (wanted : Z)
    : result (option ForwardModelStatus) :=
  match get_run_args self wanted with
  | Returns run_arg =>
      match queue_index run_arg with
      | None => (* job was not submitted *) Returns None
      | Some index =>
          if isJobWaiting (_queue_manager self) index then Returns None
          else Returns (load (runpath run_arg))
      end
  | Raises e => Raises e
  end.

(** Lines 256-260. *)
Definition run_path (self : SimulationContext) (wanted : Z) : result string :=
  match get_run_args self wanted with
  | Returns run_arg => Returns (runpath run_arg)
  | Raises e => Raises e
  end.

(** Lines 262-269. *)
Definition job_status (self : SimulationContext) (wanted : Z)
    : result (option JobStatusType) :=
  match get_run_args self wanted with
  | Returns run_arg =>
      match queue_index run_arg with
      | None => (* job was not submitted *) Returns None
      | Some index => Returns (Some (getJobStatus (_queue_manager self) index))
      end
  | Raises e => Raises e
  end.

End Simulation.

(** A run context of three realizations, the second of which was not
    submitted, and a queue manager for it. *)
Module SampleContext.

Definition submitted_arg : Simulation.RunArg :=
  Simulation.mkRunArg "run" 0 0 0 "simulations/realization-0/iter-0" "job-0"
    true (Some 0) true None.

Definition unsubmitted_arg : Simulation.RunArg :=
  Simulation.mkRunArg "run" 0 1 0 "simulations/realization-1/iter-0" "job-1"
    true None false None.

Definition manager : Simulation.JobQueueManager :=
  Simulation.mkJobQueueManager
    (fun index => index =? 0) (fun index => index =? 0) (fun _ => false)
    (fun _ => JOB_QUEUE_SUCCESS).

Definition context : Simulation.SimulationContext :=
  Simulation.mkSimulationContext
    [Some submitted_arg; None; Some unsubmitted_arg] manager.

(** A node that is being monitored, with the maximum runtime that
    [_run_forward_model] makes of a configured one. *)
Definition forward_model_node (configured : option Z) : State :=
  Sample.overdue (Simulation.forward_model_max_runtime configured)
    (Some Sample.notify).

End SampleContext.

(** A node that timed out in an earlier attempt and is ready for the next
    one. *)
Module Earlier.

Definition timed_out_node : State :=
  mkState
    (mkNode JOB_QUEUE_EXIT 1 Sample.accept Sample.notify (Some Sample.notify)
       Sample.args READY None false 3 Sample.path (Some 5) (Some 1000)
       (Some 1008) true)
    [] Sample.wall_clock [].

End Earlier.

(** * Properties *)

Ltac destruct_state s :=
  let n := fresh "n" in
  destruct s as [n tr clk ths];
  destruct n as [qs att dcb ecb tcb args ts th mx tk rp mr t0 t1 tmo];
  cbn [node trace clock threads c_status c_submit_attempt
       done_callback_function exit_callback_function callback_timeout
       callback_arguments _thread_status _thread _mutex _tried_killing
       run_path _max_runtime _start_time _end_time _timed_out] in *.

(** Running a computation on a state that is known well enough: the monad
    and the methods are unfolded, the tests on enumerations decided. *)
Ltac py_unfold :=
  cbv beta iota zeta delta
    [bind ret return_ raise diverge def_ try_except_ValueError when
     get_node modify_node get_trace emit with_mutex with_sema
     time_time time_sleep logger_info logger_warning call
     _get_status _set_status _get_submit_attempt _submit _update_status
     _run_kill timed_out submit_attempt status thread_status
     _set_thread_status submit run_done_callback run_exit_callback
     in_running_statuses is_running runtime _should_be_killed _kill
     update_status max_runtime_reached _job_monitor_timed_out
     _job_monitor_poll _job_monitor_kill_policy _job_monitor_iteration
     _job_monitor_callback _job_monitor_resolve
     _job_monitor_terminal _job_monitor_exit _job_monitor_submit
     _job_monitor_watch _job_monitor _job_monitor_from assert_ stop];
  cbn [with_node with_trace with_threads with_c_status with_c_submit_attempt
       with_thread_status with_thread with_mutex_held with_tried_killing
       with_start_time with_end_time with_timed_out
       node trace clock threads c_status c_submit_attempt
       done_callback_function exit_callback_function callback_timeout
       callback_arguments _thread_status _thread _mutex _tried_killing
       run_path _max_runtime _start_time _end_time _timed_out
       fst snd andb orb negb].

Ltac py_decide :=
  repeat first
    [ rewrite bool_decide_eq_true_2 by congruence
    | rewrite bool_decide_eq_false_2 by congruence ].

Ltac py_run := repeat (py_unfold; py_decide).

(** A case analysis on what the run is stuck on: an optional attribute, a
    comparison of numbers, the answer of a callback. *)
Ltac py_case :=
  match goal with
  | |- context [match ?x with Some _ => _ | None => _ end] =>
      is_var x; destruct x
  | |- context [match ?e with ValueError => _ | _ => _ end] =>
      is_var e; destruct e
  | |- context [match ?f ?tr ?args with CbReturn _ => _ | CbRaise _ => _ end] =>
      destruct (f tr args) eqn:?
  | |- context [if ?b then _ else _] => destruct b eqn:?
  end.

Ltac py_cases := py_run; repeat (py_case; py_run).

(** Comparisons of numbers, from booleans to propositions. *)
Ltac z_props :=
  repeat match goal with
    | H : (_ <=? _) = true |- _ => apply Z.leb_le in H
    | H : (_ <=? _) = false |- _ => apply Z.leb_gt in H
    | H : (_ <? _) = true |- _ => apply Z.ltb_lt in H
    | H : (_ <? _) = false |- _ => apply Z.ltb_ge in H
    | H : (_ =? _) = true |- _ => apply Z.eqb_eq in H
    | H : (_ =? _) = false |- _ => apply Z.eqb_neq in H
    | H : bool_decide _ = true |- _ => apply bool_decide_eq_true in H
    | H : bool_decide _ = false |- _ => apply bool_decide_eq_false in H
    end.

Ltac break_hyps :=
  repeat match goal with
    | H : _ \/ _ |- _ => destruct H
    | H : _ /\ _ |- _ => destruct H
    | H : exists _, _ |- _ => destruct H
    | H : Some _ = Some _ |- _ => injection H as H
    | H : Some _ = None |- _ => discriminate H
    | H : None = Some _ |- _ => discriminate H
    end.

(** What a clock that never runs backwards says of the readings at hand. *)
Ltac mono_fact Hmono c e tr :=
  lazymatch type of Hmono with
  | clock_monotone c =>
      lazymatch goal with
      | _ : c tr <= c (e :: tr) |- _ => fail
      | _ => pose proof (Hmono e tr)
      end
  end.

Ltac mono_facts Hmono :=
  repeat match goal with
    | H : context [?c (?e :: ?tr)] |- _ => mono_fact Hmono c e tr
    | |- context [?c (?e :: ?tr)] => mono_fact Hmono c e tr
    end.

(** A callback that returns normally did not raise. *)
Ltac no_raise :=
  match goal with
  | Hret : returns_normally ?f, H : ?f ?tr ?args = CbRaise _ |- _ =>
      destruct (Hret tr args); congruence
  end.

Ltac count_run :=
  cbn [count_events is_kill is_submit is_done_callback is_exit_callback
       is_timeout_callback is_thread_start In].

(** ** The runtime property *)

Lemma runtime_value (s : State) :
  fst (runtime s) = Ok (runtime_at (node s) (clock s (trace s))).
Proof.
  destruct_state s. unfold runtime_at. py_cases; reflexivity.
Qed.

Lemma runtime_without_start (s : State) :
  _start_time (node s) = None -> runtime s = (Ok 0, s).
Proof. destruct_state s. intros ->. reflexivity. Qed.

(** C8.  [runtime] is 0 as long as no start time is recorded, and nothing
    is read; with a start time and no end time it is the reading of the
    clock minus the start time; once an end time is recorded it is the end
    time minus the start time, whatever the clock reads. *)
Theorem runtime_spec (s : State) :
  (_start_time (node s) = None -> runtime s = (Ok 0, s)) /\
  (forall start_time,
      _start_time (node s) = Some start_time -> _end_time (node s) = None ->
      let now := clock s (trace s) in
      runtime s = (Ok (now - start_time), with_trace (EvTime now :: trace s) s)) /\
  (forall start_time end_time,
      _start_time (node s) = Some start_time ->
      _end_time (node s) = Some end_time ->
      runtime s = (Ok (end_time - start_time), s)).
Proof.
  destruct_state s. unfold runtime; cbn.
  repeat split; intros; subst; try discriminate; reflexivity.
Qed.

(** ** Killing *)

(** C6.  A kill calls the driver's kill once, adds one to the count of kill
    attempts and changes nothing else of the node; the queue status in
    particular is the one it was. *)
Theorem kill_changes_counter_only (driver : Driver) (s : State) :
  let ok := drv_kill driver (trace s) in
  _kill driver s =
    (Ok tt,
     with_trace (EvKill ok :: trace s)
       (with_node (with_tried_killing (_tried_killing (node s) + 1) (node s)) s))
  /\ c_status (node (snd (_kill driver s))) = c_status (node s).
Proof. split; reflexivity. Qed.

(** ** Stopping *)

(** C4.  With the lock free, [stop] ends normally, so its assertion holds,
    and leaves the history alone, so no driver is called: a running worker
    is set to stopping, a ready one to done with the queue status failed,
    any other is left as it is; the worker status is then one of done,
    stopping and failed. *)
Theorem stop_spec (s : State) :
  _mutex (node s) = false ->
  exists n',
    stop s = (Ok tt, with_node n' s) /\
    match _thread_status (node s) with
    | RUNNING => n' = with_thread_status STOPPING (node s)
    | READY =>
        n' = with_c_status JOB_QUEUE_FAILED (with_thread_status DONE (node s))
    | STOPPING | DONE | FAILED => n' = node s
    end /\
    (_thread_status n' = DONE \/ _thread_status n' = STOPPING
     \/ _thread_status n' = FAILED).
Proof.
  destruct_state s. intros ->.
  destruct ts; eexists; (split; [reflexivity|]); cbn; auto.
Qed.

(** ** The success callback *)

Lemma run_done_callback_eq (s : State) :
  let n := node s in
  let args := callback_arguments n in
  let called := with_trace (EvDoneCallback args :: trace s) s in
  run_done_callback s =
    match done_callback_function n (trace s) args with
    | CbReturn true => (Ok true, with_node (with_c_status JOB_QUEUE_SUCCESS n) called)
    | CbReturn false => (Ok false, with_node (with_c_status JOB_QUEUE_EXIT n) called)
    | CbRaise ValueError => (Ok false, with_node (with_c_status JOB_QUEUE_FAILED n) called)
    | CbRaise e => (Raise e, called)
    end.
Proof.
  destruct_state s. py_run.
  destruct (dcb tr args) as [[|]|[| |]]; reflexivity.
Qed.

(** C1.  The success callback is called with the caller's arguments.  When
    it returns true the queue status becomes SUCCESS, when it returns false
    EXIT, and when it raises [ValueError] the queue status becomes FAILED and
    [run_done_callback] ends normally with the answer false.  In terminal
    handling entered with DONE the callback is called once, with these
    arguments; after the answer false the callback stage is over with the
    queue status EXIT; after a [ValueError] the failure callback is called
    with the same arguments, the queue status is FAILED, and the only
    exception that can leave is one the failure callback raises. *)
Theorem done_callback_outcome (pool_sema : Semaphore) (max_submit : Z) (s : State) :
  let n := node s in
  let args := callback_arguments n in
  (let called := with_trace (EvDoneCallback args :: trace s) s in
   let answer := done_callback_function n (trace s) args in
   (answer = CbReturn true ->
    run_done_callback s =
      (Ok true, with_node (with_c_status JOB_QUEUE_SUCCESS n) called)) /\
   (answer = CbReturn false ->
    run_done_callback s =
      (Ok false, with_node (with_c_status JOB_QUEUE_EXIT n) called)) /\
   (answer = CbRaise ValueError ->
    run_done_callback s =
      (Ok false, with_node (with_c_status JOB_QUEUE_FAILED n) called))) /\
  (_mutex n = false ->
   let entered := EvSemaAcquire pool_sema :: trace s in
   let left := EvSemaRelease pool_sema :: EvDoneCallback args :: entered in
   let out := _job_monitor_terminal pool_sema max_submit JOB_QUEUE_DONE s in
   count_events is_done_callback (trace (snd out))
     = S (count_events is_done_callback (trace s)) /\
   In (EvDoneCallback args) (trace (snd out)) /\
   (done_callback_function n entered args = CbReturn true ->
    out = (Ok tt,
           with_trace left
             (with_node (with_thread_status DONE
                           (with_c_status JOB_QUEUE_SUCCESS n)) s))) /\
   (done_callback_function n entered args = CbReturn false ->
    let stage := _job_monitor_callback pool_sema JOB_QUEUE_DONE (locked s) in
    fst stage = Ok tt /\ c_status (node (snd stage)) = JOB_QUEUE_EXIT) /\
   (done_callback_function n entered args = CbRaise ValueError ->
    trace (snd out) = EvExitCallback args :: left /\
    c_status (node (snd out)) = JOB_QUEUE_FAILED /\
    match exit_callback_function n left args with
    | CbReturn _ => fst out = Ok tt /\ _thread_status (node (snd out)) = DONE
    | CbRaise e => fst out = Raise e
    end)).
Proof.
  split.
  - cbv zeta. rewrite run_done_callback_eq. cbv zeta.
    repeat split; intros ->; reflexivity.
  - destruct_state s. intros ->. cbv zeta. unfold locked.
    py_run.
    destruct (dcb _ args) as [[|]|[| |]] eqn:Hd; py_run;
      try destruct (att <? max_submit); py_run;
      try destruct (ecb _ args) as [?|?] eqn:He; py_run;
      cbn [count_events is_done_callback In];
      repeat split; try discriminate; try reflexivity; auto.
    all: try (destruct qs; py_run; try destruct (att <? max_submit); py_run;
      try destruct (ecb _ args) as [?|?]; reflexivity).
Qed.

(** ** Terminal handling of EXIT *)

(** C2.  Let the queue status be EXIT once the callback stage of terminal
    handling is over.  With fewer submission attempts than [max_submit] the
    worker status is set to READY and the monitor returns at once: the
    failure callback is not called and the worker status is not set to DONE.
    Otherwise the queue status is set to FAILED and the failure callback is
    called, once. *)
Theorem exit_resubmits_or_fails (pool_sema : Semaphore) (max_submit : Z)
    (current_status : JobStatusType) (s : State) :
  _mutex (node s) = false ->
  let stage := _job_monitor_callback pool_sema current_status (locked s) in
  fst stage = Ok tt ->
  c_status (node (snd stage)) = JOB_QUEUE_EXIT ->
  let n := node s in
  let args := callback_arguments n in
  let out := _job_monitor_terminal pool_sema max_submit current_status s in
  (c_submit_attempt n < max_submit ->
   fst out = Return_ /\
   _thread_status (node (snd out)) = READY /\
   c_status (node (snd out)) = JOB_QUEUE_EXIT /\
   trace (snd out) = trace (snd stage) /\
   count_events is_exit_callback (trace (snd out))
     = count_events is_exit_callback (trace s)) /\
  (max_submit <= c_submit_attempt n ->
   c_status (node (snd out)) = JOB_QUEUE_FAILED /\
   trace (snd out) = EvExitCallback args :: trace (snd stage) /\
   count_events is_exit_callback (trace (snd out))
     = S (count_events is_exit_callback (trace s)) /\
   match exit_callback_function n (trace (snd stage)) args with
   | CbReturn _ => fst out = Ok tt /\ _thread_status (node (snd out)) = DONE
   | CbRaise e => fst out = Raise e
   end).
Proof.
  destruct_state s. intros ->. unfold locked.
  destruct (decide (current_status = JOB_QUEUE_DONE)) as [->|Hcur].
  - py_run. destruct (dcb _ args) as [[|]|[| |]]; py_run; try discriminate.
    intros _ _.
    split; intros Hatt.
    + apply Z.ltb_lt in Hatt. rewrite Hatt. py_run.
      cbn [count_events is_exit_callback]. auto.
    + apply Z.ltb_ge in Hatt. rewrite Hatt. py_run.
      destruct (ecb _ args); py_run;
        cbn [count_events is_exit_callback]; auto.
  - py_run. intros _ ->. py_run.
    split; intros Hatt.
    + apply Z.ltb_lt in Hatt. rewrite Hatt. py_run. auto.
    + apply Z.ltb_ge in Hatt. rewrite Hatt. py_run.
      destruct (ecb _ args); py_run;
        cbn [count_events is_exit_callback]; auto.
Qed.

(** ** A failed submission *)

(** C3.  When the driver's submission does not answer OK, the queue status
    is DONE as soon as line 172 is over and nothing is raised; the monitor
    goes on with the code that follows every submission.  If the poll that
    follows leaves DONE alone, the loop is not entered and the monitor is in
    its terminal handling, with DONE. *)
Theorem failed_submit_is_done (fuel : nat) (driver : Driver)
    (pool_sema : Semaphore) (max_submit : Z) (s : State) :
  fst (drv_submit driver (trace s) (c_status (node s))) <> SUBMIT_OK ->
  let s1 := snd (_job_monitor_submit driver s) in
  _job_monitor_submit driver s = (Ok tt, s1) /\
  c_status (node s1) = JOB_QUEUE_DONE /\
  _job_monitor fuel driver pool_sema max_submit s
    = def_ (_job_monitor_watch fuel driver pool_sema max_submit) s1 /\
  (drv_poll driver (trace s1) JOB_QUEUE_DONE = JOB_QUEUE_DONE ->
   _job_monitor (S fuel) driver pool_sema max_submit s
     = def_ (_job_monitor_exit pool_sema max_submit JOB_QUEUE_DONE)
         (snd (update_status driver s1))).
Proof.
  intros Hsub s1.
  assert (Hs1 : _job_monitor_submit driver s = (Ok tt, s1)
                /\ c_status (node s1) = JOB_QUEUE_DONE).
  { subst s1. destruct_state s. py_unfold.
    destruct (drv_submit driver tr qs) as [outcome st].
    cbn [fst] in Hsub. py_run. auto. }
  destruct Hs1 as [Hrun Hdone].
  assert (Hmon : _job_monitor fuel driver pool_sema max_submit s
                 = def_ (_job_monitor_watch fuel driver pool_sema max_submit) s1).
  { unfold _job_monitor, def_, bind. rewrite Hrun. reflexivity. }
  repeat split; auto.
  intros Hpoll.
  unfold _job_monitor, def_, bind. rewrite Hrun.
  destruct_state s1. subst qs.
  unfold _job_monitor_watch, _job_monitor_loop. py_run.
  rewrite Hpoll. py_run. reflexivity.
Qed.

(** ** The kill policy *)

Lemma count_events_cons (kind : Event -> bool) (e : Event) (tr : Trace) :
  count_events kind (e :: tr)
  = if kind e then S (count_events kind tr) else count_events kind tr.
Proof. reflexivity. Qed.

(** The kill policy of one pass of the loop. *)
Lemma kill_policy_outcome (driver : Driver) (s : State) :
  _mutex (node s) = false ->
  let n := node s in
  let now := clock s (trace s) in
  let args := callback_arguments n in
  let out := _job_monitor_kill_policy driver s in
  let n' := node (snd out) in
  let tr' := trace (snd out) in
  (_thread_status n = STOPPING \/ runtime_exceeded n now ->
   count_events is_kill tr' = S (count_events is_kill (trace s)) /\
   _tried_killing n' = _tried_killing n + 1) /\
  (~ (_thread_status n = STOPPING \/ runtime_exceeded n now) ->
   fst out = Ok tt /\
   count_events is_kill tr' = count_events is_kill (trace s) /\
   count_events is_timeout_callback tr'
     = count_events is_timeout_callback (trace s) /\
   n' = n) /\
  (_max_runtime n <> Some 0 ->
   clock_monotone (clock s) ->
   runtime_exceeded n now ->
   match callback_timeout n with
   | Some callback =>
       In (EvTimeoutCallback args) tr' /\
       count_events is_timeout_callback tr'
         = S (count_events is_timeout_callback (trace s)) /\
       (returns_normally callback -> fst out = Ok tt /\ _timed_out n' = true)
   | None => fst out = Ok tt /\ _timed_out n' = true
   end).
Proof.
  destruct_state s. intros ->. cbv zeta.
  unfold runtime_exceeded, runtime_at.
  cbn [_max_runtime _start_time _end_time].
  split; [|split].
  - intros Hshould. py_cases.
    all: z_props; break_hyps; subst; count_run;
      try (split; [reflexivity || congruence | lia]); try congruence; try lia.
  - intros Hnot. py_cases.
    all: z_props; try congruence; count_run; auto.
    all: exfalso; apply Hnot; eauto.
  - intros Hmr Hmono [m [Hm Hle]]. subst mr.
    assert (Hm0 : m <> 0) by congruence.
    py_cases.
    all: z_props; try congruence; mono_facts Hmono; try lia.
    all: count_run; repeat split; auto; try (intros; no_raise).
Qed.

(** The first half of a pass always ends normally, and leaves the lock and
    the clock as they are. *)
Lemma poll_ok (driver : Driver) (current_status : JobStatusType) (s : State) :
  exists polled,
    _job_monitor_poll driver current_status s = (Ok tt, polled) /\
    _mutex (node polled) = _mutex (node s) /\
    clock polled = clock s.
Proof.
  destruct_state s. py_cases; eexists; (split; [reflexivity|]); split; reflexivity.
Qed.

(** A pass is its first half, the kill policy, and a last look at the
    queue status. *)
Lemma iteration_after_poll (driver : Driver) (current_status : JobStatusType)
    (s polled : State) :
  _job_monitor_poll driver current_status s = (Ok tt, polled) ->
  _job_monitor_iteration driver current_status s =
    match _job_monitor_kill_policy driver polled with
    | (Ok _, s') => (Ok (c_status (node s')), s')
    | (Return_, s') => (Return_, s')
    | (Raise e, s') => (Raise e, s')
    | (Diverge, s') => (Diverge, s')
    end.
Proof.
  intros Hpoll. unfold _job_monitor_iteration. unfold bind at 1.
  rewrite Hpoll. unfold bind at 1.
  destruct (_job_monitor_kill_policy driver polled) as [[[]| |e|] s1];
    reflexivity.
Qed.

(** The first half of a pass leaves the end time as it is. *)
Lemma poll_end_time (driver : Driver) (current_status : JobStatusType)
    (s : State) :
  _end_time (node (snd (_job_monitor_poll driver current_status s)))
  = _end_time (node s).
Proof. destruct_state s. py_cases; reflexivity. Qed.

(** The kill policy of one pass on a node without an end time, against the
    runtime condition as the spec words it. *)
Lemma kill_policy_first_run (driver : Driver) (s : State) :
  _mutex (node s) = false ->
  _end_time (node s) = None ->
  let n := node s in
  let now := clock s (trace s) in
  let second_look := clock s (trace (at_second_look driver s)) in
  let args := callback_arguments n in
  let out := _job_monitor_kill_policy driver s in
  let n' := node (snd out) in
  let tr' := trace (snd out) in
  _end_time n' = None /\
  (_thread_status n = STOPPING \/ spec_runtime_condition n now ->
   count_events is_kill tr' = S (count_events is_kill (trace s)) /\
   _tried_killing n' = _tried_killing n + 1) /\
  (~ (_thread_status n = STOPPING \/ spec_runtime_condition n now) ->
   fst out = Ok tt /\
   count_events is_kill tr' = count_events is_kill (trace s) /\
   count_events is_timeout_callback tr'
     = count_events is_timeout_callback (trace s) /\
   n' = n) /\
  (_max_runtime n <> Some 0 ->
   spec_runtime_condition n now ->
   now <= second_look ->
   match callback_timeout n with
   | Some callback =>
       exists history,
         tr' = EvTimeoutCallback args :: history /\
         count_events is_timeout_callback tr'
           = S (count_events is_timeout_callback (trace s)) /\
         (forall truthy,
             callback history args = CbReturn truthy ->
             fst out = Ok tt /\ _timed_out n' = true) /\
         (forall e,
             callback history args = CbRaise e ->
             fst out = Raise e /\ _timed_out n' = _timed_out n)
   | None => fst out = Ok tt /\ _timed_out n' = true
   end).
Proof.
  destruct_state s. intros -> ->. cbv zeta.
  unfold spec_runtime_condition, spec_elapsed_runtime, at_second_look.
  cbn [_max_runtime _start_time].
  split; [|split; [|split]].
  - py_cases; reflexivity.
  - intros Hshould. py_cases.
    all: z_props; break_hyps; subst; count_run;
      try (split; [reflexivity || congruence | lia]); try congruence; try lia.
  - intros Hnot. py_cases.
    all: z_props; try congruence; count_run; auto.
    all: exfalso; apply Hnot; eauto.
  - intros Hmr [m [Hm Hle]]. subst mr.
    assert (Hm0 : m <> 0) by congruence.
    py_cases.
    all: intros Hlook; z_props; try congruence; try lia.
    all: try (eexists; split; [reflexivity|]).
    all: count_run; repeat split; auto; intros; congruence.
Qed.

(** C5, amended.  One pass of the monitor loop that finds the lock free and
    no end time on the node, as every pass of the first run of a node does;
    it leaves no end time either.  Once the job is polled, a kill is
    attempted, one, exactly when the worker status is STOPPING or a maximum
    runtime is configured and the elapsed runtime has reached it; otherwise
    the pass leaves the node as the poll left it and calls no callback.
    When the runtime condition holds for a maximum runtime other than 0, and
    the clock does not read less at the second look at the runtime than when
    the job was polled, the timeout callback, if there is one, is called
    with the caller's arguments as the last call of the pass; if that call
    returns the node is flagged as timed out, and if it raises the pass ends
    with its exception and the flag as it was.  With no timeout callback the
    node is flagged as timed out. *)
Theorem kill_policy_spec (driver : Driver) (current_status : JobStatusType)
    (s : State) :
  _mutex (node s) = false ->
  _end_time (node s) = None ->
  let polled := snd (_job_monitor_poll driver current_status s) in
  let n := node polled in
  let now := clock polled (trace polled) in
  let second_look := clock polled (trace (at_second_look driver polled)) in
  let args := callback_arguments n in
  let out := _job_monitor_iteration driver current_status s in
  let n' := node (snd out) in
  let tr' := trace (snd out) in
  _end_time n' = None /\
  (_thread_status n = STOPPING \/ spec_runtime_condition n now ->
   count_events is_kill tr' = S (count_events is_kill (trace polled)) /\
   _tried_killing n' = _tried_killing n + 1) /\
  (~ (_thread_status n = STOPPING \/ spec_runtime_condition n now) ->
   fst out = Ok (c_status n) /\
   count_events is_kill tr' = count_events is_kill (trace polled) /\
   count_events is_timeout_callback tr'
     = count_events is_timeout_callback (trace polled) /\
   n' = n) /\
  (_max_runtime n <> Some 0 ->
   spec_runtime_condition n now ->
   now <= second_look ->
   match callback_timeout n with
   | Some callback =>
       exists history,
         tr' = EvTimeoutCallback args :: history /\
         count_events is_timeout_callback tr'
           = S (count_events is_timeout_callback (trace polled)) /\
         (forall truthy,
             callback history args = CbReturn truthy ->
             fst out = Ok (c_status n') /\ _timed_out n' = true) /\
         (forall e,
             callback history args = CbRaise e ->
             fst out = Raise e /\ _timed_out n' = _timed_out n)
   | None => fst out = Ok (c_status n') /\ _timed_out n' = true
   end).
Proof.
  intros Hmx Hend. cbv zeta.
  pose proof (poll_end_time driver current_status s) as Hend'.
  destruct (poll_ok driver current_status s) as (polled & Hpoll & Hmx' & Hclk).
  rewrite (iteration_after_poll _ _ _ _ Hpoll). rewrite Hpoll in *.
  cbn [snd] in *.
  rewrite <- Hmx' in Hmx. rewrite <- Hend' in Hend.
  pose proof (kill_policy_first_run driver polled Hmx Hend) as Hpolicy.
  cbv zeta in Hpolicy.
  destruct Hpolicy as (Hnoend & Hkill & Hnot & Htimeout).
  destruct (_job_monitor_kill_policy driver polled) as [[[]| |e|] s1];
    cbn [fst snd] in *.
  all: split; [exact Hnoend | split; [exact Hkill | split]].
  all: try (intros Hn; destruct (Hnot Hn) as (Hok & Hk & Hc & Hnode);
            try discriminate; rewrite <- Hnode; auto).
  all: intros Hmr Hex Hlook; specialize (Htimeout Hmr Hex Hlook);
    destruct (callback_timeout (node polled)).
  all: try (destruct Htimeout as (history & Htr & Hc & Hret & Hraise);
            exists history; refine (conj Htr (conj Hc (conj _ _)))).
  all: first
    [ intros truthy Hr; destruct (Hret truthy Hr) as [Hok Hflag]
    | intros e' Hr; destruct (Hraise e' Hr) as [Hok Hflag]
    | destruct Htimeout as [Hok Hflag] ].
  all: try discriminate.
  all: split; solve [reflexivity | congruence | exact Hflag].
Qed.

(** ** A job that is never seen running *)

(** One pass of the loop for a job that is not seen running and has no
    start time, under a maximum runtime that is unset or positive: the pass
    ends normally, no start time is recorded, the timeout flag and the
    timeout callback are left alone, and a kill is attempted only for a
    worker that is stopping. *)
Lemma iteration_without_start (driver : Driver)
    (current_status : JobStatusType) (s : State) :
  _mutex (node s) = false ->
  _start_time (node s) = None ->
  (forall m, _max_runtime (node s) = Some m -> 0 < m) ->
  current_status <> JOB_QUEUE_RUNNING ->
  exists current_status' s',
    _job_monitor_iteration driver current_status s = (Ok current_status', s') /\
    _mutex (node s') = false /\
    _start_time (node s') = None /\
    _max_runtime (node s') = _max_runtime (node s) /\
    _thread_status (node s') = _thread_status (node s) /\
    _timed_out (node s') = _timed_out (node s) /\
    count_events is_timeout_callback (trace s')
      = count_events is_timeout_callback (trace s) /\
    (_thread_status (node s) <> STOPPING ->
     _tried_killing (node s') = _tried_killing (node s) /\
     count_events is_kill (trace s') = count_events is_kill (trace s)).
Proof.
  destruct_state s. intros -> -> Hm Hcur.
  py_cases.
  all: z_props; try congruence.
  all: try (match goal with H : Some ?m = Some _ -> _ |- _ => idtac end).
  all: try (specialize (Hm _ eq_refl); lia).
  all: do 2 eexists; (split; [reflexivity|]); py_run; count_run;
    repeat split; auto; try congruence.
Qed.

(** C10, amended.  Let the maximum runtime be unset or positive.  As long
    as the monitor loop does not see the job in RUNNING, however long it
    polls and whatever the clock reads, no start time is recorded and the
    runtime is 0, the timeout flag is not set and the timeout callback is not
    called; and unless the worker is stopping no kill is attempted. *)
Theorem no_timeout_without_running (fuel : nat) (driver : Driver)
    (current_status : JobStatusType) (s : State) :
  _mutex (node s) = false ->
  _start_time (node s) = None ->
  (forall m, _max_runtime (node s) = Some m -> 0 < m) ->
  Forall (fun st => st <> JOB_QUEUE_RUNNING)
    (_job_monitor_observed fuel driver current_status s) ->
  let s' := snd (_job_monitor_loop fuel driver current_status s) in
  _start_time (node s') = None /\
  runtime s' = (Ok 0, s') /\
  _timed_out (node s') = _timed_out (node s) /\
  count_events is_timeout_callback (trace s')
    = count_events is_timeout_callback (trace s) /\
  (_thread_status (node s) <> STOPPING ->
   _tried_killing (node s') = _tried_killing (node s) /\
   count_events is_kill (trace s') = count_events is_kill (trace s)).
Proof.
  revert current_status s.
  induction fuel as [|fuel IH]; intros current_status s Hmx Hst Hm Hobs.
  - cbn. repeat split; auto.
    apply runtime_without_start; assumption.
  - cbn [_job_monitor_observed] in Hobs.
    apply Forall_cons in Hobs as [Hcur Hrest].
    cbn [_job_monitor_loop]. unfold bind at 1, is_running, bind, ret.
    destruct (in_running_statuses current_status).
    + destruct (iteration_without_start driver current_status s Hmx Hst Hm Hcur)
        as (cur' & s1 & Hit & Hmx1 & Hst1 & Hmr1 & Hts1 & Hto1 & Hcb1 & Hk1).
      rewrite Hit in Hrest. unfold bind. rewrite Hit.
      assert (Hm1 : forall m, _max_runtime (node s1) = Some m -> 0 < m)
        by (intros m; rewrite Hmr1; apply Hm).
      specialize (IH cur' s1 Hmx1 Hst1 Hm1 Hrest).
      destruct IH as (Ha & Hb & Hc & Hd & He).
      refine (conj Ha (conj Hb (conj _ (conj _ _)))); try congruence.
      rewrite Hts1 in He. intros Hts.
      destruct (He Hts), (Hk1 Hts). split; congruence.
    + cbn. repeat split; auto.
      apply runtime_without_start; assumption.
Qed.

(** ** The monitor thread *)














Lemma wait_for_idle (fuel : nat) (s : State) :
  thread_known s -> all_threads_over s -> wait_for fuel s = (Ok tt, s).
Proof.
  intros Hknown Hover. unfold wait_for, bind, get_node.
  destruct (_thread (node s)) as [tid|] eqn:Hth; [|reflexivity].
  destruct (Hknown tid Hth) as [t Hlook].
  unfold Thread_is_alive. rewrite Hlook, (Hover tid t Hlook). reflexivity.
Qed.

(** What [run] does once the wait is over. *)
Lemma run_after_wait (fuel : nat) (driver : Driver) (pool_sema : Semaphore)
    (max_submit : Z) (s w : State) :
  wait_for fuel s = (Ok tt, w) ->
  run fuel driver pool_sema max_submit s =
    if bool_decide (_thread_status (node w) = STOPPING) then
      (Ok tt, with_node (with_thread_status DONE (node w)) w)
    else
      let tid := length (threads w) in
      (Ok tt,
       mkState
         (with_thread (Some tid)
            (with_start_time None (with_thread_status RUNNING (node w))))
         (EvThreadStart tid :: trace w) (clock w)
         (threads w ++ [mkThread true AtEntry driver pool_sema max_submit])).
Proof.
  intros Hw. unfold run, def_. unfold bind at 1. rewrite Hw.
  destruct_state w. py_unfold.
  destruct (bool_decide (ts = STOPPING)); py_unfold; [reflexivity|].
  unfold Thread_new, Thread_start; py_unfold.
  rewrite list_lookup_middle by reflexivity.
  unfold set_alive; py_unfold.
  rewrite insert_app_r_alt by lia.
  rewrite Nat.sub_diag. reflexivity.
Qed.

Lemma all_over_alive_threads (s : State) :
  all_threads_over s -> alive_threads s = O.
Proof.
  unfold all_threads_over, alive_threads.
  induction (threads s) as [|t l IH]; intros Hover; [reflexivity|].
  cbn [List.filter]. rewrite (Hover O t eq_refl).
  apply IH. intros tid t' Hlook. apply (Hover (S tid) t' Hlook).
Qed.

(** A machine without threads, such as the one a new node lives in, meets
    the two conditions on threads. *)
Lemma no_threads_invariant (s : State) :
  threads s = [] -> _thread (node s) = None ->
  own_thread_only s /\ thread_known s.
Proof.
  intros Hths Hth. split.
  - intros tid t Hlook. rewrite Hths in Hlook. discriminate.
  - intros tid Htid. congruence.
Qed.

(** [stop] keeps them. *)
Lemma stop_keeps_threads (s : State) :
  threads (snd (stop s)) = threads s /\
  _thread (node (snd (stop s))) = _thread (node s).
Proof. destruct_state s. py_cases; destruct ts; py_cases; split; reflexivity. Qed.


(** ** The runtime of a retried job *)

(** One pass of the loop for a node that still holds the end time [e] of an
    earlier attempt, under a positive maximum runtime and with a worker that
    is not stopping: a start time recorded now is not before [e], so the
    runtime is not positive and nothing is killed. *)
Lemma iteration_with_stale_end (driver : Driver)
    (current_status : JobStatusType) (s : State) (e m : Z) :
  _mutex (node s) = false ->
  _end_time (node s) = Some e ->
  _max_runtime (node s) = Some m ->
  0 < m ->
  _thread_status (node s) <> STOPPING ->
  clock_monotone (clock s) ->
  e <= clock s (trace s) ->
  (forall start_time, _start_time (node s) = Some start_time -> e <= start_time) ->
  exists current_status' s',
    _job_monitor_iteration driver current_status s = (Ok current_status', s') /\
    _mutex (node s') = false /\
    _end_time (node s') = Some e /\
    _max_runtime (node s') = Some m /\
    _thread_status (node s') = _thread_status (node s) /\
    clock s' = clock s /\
    e <= clock s' (trace s') /\
    (forall start_time, _start_time (node s') = Some start_time -> e <= start_time) /\
    _tried_killing (node s') = _tried_killing (node s) /\
    count_events is_kill (trace s') = count_events is_kill (trace s) /\
    _timed_out (node s') = _timed_out (node s).
Proof.
  destruct_state s. intros -> -> -> Hm Hts Hmono He Hst.
  destruct t0 as [st|]; [specialize (Hst st eq_refl)|clear Hst].
  all: py_cases; z_props; try congruence; try lia.
  all: do 2 eexists; (split; [reflexivity|]); py_run; count_run.
  all: mono_facts Hmono.
  all: repeat split; auto; try lia.
  all: intros ? [= <-]; lia.
Qed.

(** The loop of a retried job never kills for the runtime: while the end
    time of the earlier attempt stays on the node, [runtime] does not grow
    with the clock. *)
Lemma loop_with_stale_end (fuel : nat) (driver : Driver)
    (current_status : JobStatusType) (s : State) (e m : Z) :
  _mutex (node s) = false ->
  _end_time (node s) = Some e ->
  _max_runtime (node s) = Some m ->
  0 < m ->
  _thread_status (node s) <> STOPPING ->
  clock_monotone (clock s) ->
  e <= clock s (trace s) ->
  (forall start_time, _start_time (node s) = Some start_time -> e <= start_time) ->
  let s' := snd (_job_monitor_loop fuel driver current_status s) in
  _tried_killing (node s') = _tried_killing (node s) /\
  count_events is_kill (trace s') = count_events is_kill (trace s) /\
  _timed_out (node s') = _timed_out (node s) /\
  (forall r s'', runtime s' = (Ok r, s'') -> r <= 0).
Proof.
  revert current_status s.
  induction fuel as [|fuel IH]; intros current_status s Hmx He Hmr Hm Hts Hmono Hclk Hst.
  - cbn. repeat split; auto.
    intros r s''. destruct_state s. subst. py_unfold.
    destruct t0 as [st|]; intros [= <- <-]; [specialize (Hst st eq_refl)|]; lia.
  - cbn [_job_monitor_loop]. unfold bind at 1, is_running, bind, ret.
    destruct (in_running_statuses current_status).
    + destruct (iteration_with_stale_end driver current_status s e m
                  Hmx He Hmr Hm Hts Hmono Hclk Hst)
        as (cur' & s1 & Hit & Hmx1 & He1 & Hmr1 & Hts1 & Hc1 & Hclk1 & Hst1
            & Htk1 & Hk1 & Hto1).
      unfold bind. rewrite Hit.
      assert (Hts' : _thread_status (node s1) <> STOPPING) by congruence.
      assert (Hmono' : clock_monotone (clock s1)) by (rewrite Hc1; exact Hmono).
      specialize (IH cur' s1 Hmx1 He1 Hmr1 Hm Hts' Hmono' Hclk1 Hst1).
      cbv zeta in IH. destruct IH as (Ha & Hb & Hc & Hd).
      refine (conj _ (conj _ (conj _ Hd))); congruence.
    + cbn. repeat split; auto.
      intros r s''. destruct_state s. subst. py_unfold.
      destruct t0 as [st|]; intros [= <- <-]; [specialize (Hst st eq_refl)|]; lia.
Qed.

(** ** The sample clock *)

Lemma wall_clock_monotone : clock_monotone Sample.wall_clock.
Proof.
  intros e tr. unfold Sample.wall_clock. rewrite count_events_cons.
  destruct (Sample.is_sleep e); lia.
Qed.

(** C9.  A job with a maximum runtime of 5 seconds whose first attempt ran
    and exited is retried.  [run] has reset the start time, and the end time
    of the first attempt, 1002, is still on the node.  However long the
    monitor of the second attempt polls, it attempts no kill and does not
    flag a timeout; after 30 passes the clock has advanced by 30 seconds
    since the start time of the second attempt, and [runtime] reads 0. *)
Theorem retried_job_outlives_max_runtime :
  let s2 := snd Retry.second_run in
  (fst Retry.second_run = Ok tt /\
   c_submit_attempt (node s2) = 1 /\
   _thread_status (node s2) = RUNNING /\
   _max_runtime (node s2) = Some 5 /\
   _start_time (node s2) = None /\
   _end_time (node s2) = Some 1002) /\
  (forall fuel,
      let s3 := snd (_job_monitor_loop fuel Sample.flaky JOB_QUEUE_RUNNING
                       Retry.at_loop) in
      _tried_killing (node s3) = 0 /\
      count_events is_kill (trace s3) = O /\
      _timed_out (node s3) = false) /\
  (let waited := wait_for 30 s2 in
   let s3 := snd waited in
   fst waited = Diverge /\
   c_status (node s3) = JOB_QUEUE_RUNNING /\
   _start_time (node s3) = Some 1002 /\
   clock s3 (trace s3) = 1032 /\
   fst (runtime s3) = Ok 0 /\
   _tried_killing (node s3) = 0 /\
   _timed_out (node s3) = false).
Proof.
  cbv zeta. split; [|split].
  - vm_compute. repeat split; reflexivity.
  - intros fuel.
    pose proof (loop_with_stale_end fuel Sample.flaky JOB_QUEUE_RUNNING
                  Retry.at_loop 1002 5) as H.
    cbv zeta in H.
    destruct H as (Htk & Hk & Hto & _).
    + reflexivity.
    + reflexivity.
    + reflexivity.
    + lia.
    + vm_compute. discriminate.
    + exact wall_clock_monotone.
    + vm_compute. discriminate.
    + vm_compute. discriminate.
    + rewrite Htk, Hk, Hto. vm_compute. repeat split; reflexivity.
  - vm_compute. repeat split; reflexivity.
Qed.

(** ** The properties at work on the samples *)

Lemma runtime_spec_witness :
  runtime (Sample.fresh Sample.accept None None)
    = (Ok 0, Sample.fresh Sample.accept None None) /\
  fst (runtime (Sample.overdue (Some 5) None)) = Ok 10 /\
  fst (runtime (Sample.finished JOB_QUEUE_DONE 1 Sample.accept Sample.notify))
    = Ok 2.
Proof.
  split; [|split].
  - apply (proj1 (runtime_spec (Sample.fresh Sample.accept None None))).
    reflexivity.
  - rewrite (proj1 (proj2 (runtime_spec (Sample.overdue (Some 5) None)))
               990 eq_refl eq_refl).
    reflexivity.
  - rewrite (proj2 (proj2 (runtime_spec
               (Sample.finished JOB_QUEUE_DONE 1 Sample.accept Sample.notify)))
               1001 1003 eq_refl eq_refl).
    reflexivity.
Defined.

Lemma stop_spec_witness :
  (exists n',
      stop (Sample.monitored JOB_QUEUE_RUNNING None None)
        = (Ok tt, with_node n' (Sample.monitored JOB_QUEUE_RUNNING None None))
      /\ _thread_status n' = STOPPING) /\
  (exists n',
      stop (Sample.fresh Sample.accept None None)
        = (Ok tt, with_node n' (Sample.fresh Sample.accept None None))
      /\ _thread_status n' = DONE /\ c_status n' = JOB_QUEUE_FAILED).
Proof.
  split.
  - destruct (stop_spec (Sample.monitored JOB_QUEUE_RUNNING None None) eq_refl)
      as (n' & Hstop & Hn' & _).
    exists n'. split; [exact Hstop|]. cbn in Hn'. rewrite Hn'. reflexivity.
  - destruct (stop_spec (Sample.fresh Sample.accept None None) eq_refl)
      as (n' & Hstop & Hn' & _).
    exists n'. split; [exact Hstop|]. cbn in Hn'. rewrite Hn'.
    split; reflexivity.
Defined.

Lemma done_callback_outcome_witness :
  c_status (node (snd (run_done_callback
     (Sample.finished JOB_QUEUE_DONE 1 Sample.accept Sample.notify))))
    = JOB_QUEUE_SUCCESS /\
  c_status (node (snd (run_done_callback
     (Sample.finished JOB_QUEUE_DONE 1 Sample.reject Sample.notify))))
    = JOB_QUEUE_EXIT /\
  run_done_callback (Sample.finished JOB_QUEUE_DONE 1 Sample.invalid Sample.notify)
    = (Ok false,
       with_node
         (with_c_status JOB_QUEUE_FAILED
            (node (Sample.finished JOB_QUEUE_DONE 1 Sample.invalid Sample.notify)))
         (with_trace [EvDoneCallback Sample.args]
            (Sample.finished JOB_QUEUE_DONE 1 Sample.invalid Sample.notify))) /\
  (let out := _job_monitor_terminal Sample.pool 2 JOB_QUEUE_DONE
                (Sample.finished JOB_QUEUE_DONE 1 Sample.invalid Sample.notify) in
   fst out = Ok tt /\
   c_status (node (snd out)) = JOB_QUEUE_FAILED /\
   _thread_status (node (snd out)) = DONE /\
   trace (snd out)
     = [EvExitCallback Sample.args; EvSemaRelease Sample.pool;
        EvDoneCallback Sample.args; EvSemaAcquire Sample.pool]).
Proof.
  split; [|split; [|split]].
  - rewrite (proj1 (proj1 (done_callback_outcome Sample.pool 2
       (Sample.finished JOB_QUEUE_DONE 1 Sample.accept Sample.notify))) eq_refl).
    reflexivity.
  - rewrite (proj1 (proj2 (proj1 (done_callback_outcome Sample.pool 2
       (Sample.finished JOB_QUEUE_DONE 1 Sample.reject Sample.notify)))) eq_refl).
    reflexivity.
  - apply (proj2 (proj2 (proj1 (done_callback_outcome Sample.pool 2
       (Sample.finished JOB_QUEUE_DONE 1 Sample.invalid Sample.notify))))).
    reflexivity.
  - destruct (proj2 (done_callback_outcome Sample.pool 2
       (Sample.finished JOB_QUEUE_DONE 1 Sample.invalid Sample.notify)) eq_refl)
      as (_ & _ & _ & _ & Hinvalid).
    destruct (Hinvalid eq_refl) as (Htrace & Hstatus & Hexit).
    cbn in Hexit. destruct Hexit as [Hres Hts].
    cbv zeta. repeat split; assumption.
Defined.

Lemma exit_resubmits_or_fails_witness :
  (let out := _job_monitor_terminal Sample.pool 2 JOB_QUEUE_EXIT
                (Sample.finished JOB_QUEUE_EXIT 1 Sample.accept Sample.notify) in
   fst out = Return_ /\
   _thread_status (node (snd out)) = READY /\
   trace (snd out) = []) /\
  (let out := _job_monitor_terminal Sample.pool 2 JOB_QUEUE_DONE
                (Sample.finished JOB_QUEUE_DONE 2 Sample.reject Sample.notify) in
   fst out = Ok tt /\
   c_status (node (snd out)) = JOB_QUEUE_FAILED /\
   _thread_status (node (snd out)) = DONE /\
   count_events is_exit_callback (trace (snd out)) = 1%nat).
Proof.
  split.
  - destruct (exit_resubmits_or_fails Sample.pool 2 JOB_QUEUE_EXIT
                (Sample.finished JOB_QUEUE_EXIT 1 Sample.accept Sample.notify)
                eq_refl eq_refl eq_refl) as [Hretry _].
    destruct (Hretry ltac:(cbn; lia)) as (Hres & Hts & _ & Htr & _).
    cbv zeta. repeat split; assumption.
  - destruct (exit_resubmits_or_fails Sample.pool 2 JOB_QUEUE_DONE
                (Sample.finished JOB_QUEUE_DONE 2 Sample.reject Sample.notify)
                eq_refl eq_refl eq_refl) as [_ Hfail].
    destruct (Hfail ltac:(cbn; lia)) as (Hst & _ & Hcount & Hexit).
    cbn in Hexit. destruct Hexit as [Hres Hts].
    cbv zeta. repeat split; assumption.
Defined.

Lemma failed_submit_is_done_witness :
  let s := Sample.fresh Sample.accept None None in
  c_status (node (snd (_job_monitor_submit Sample.refusing s))) = JOB_QUEUE_DONE /\
  _job_monitor 1 Sample.refusing Sample.pool 2 s
    = def_ (_job_monitor_exit Sample.pool 2 JOB_QUEUE_DONE)
        (snd (update_status Sample.refusing
                (snd (_job_monitor_submit Sample.refusing s)))).
Proof.
  cbv zeta.
  destruct (failed_submit_is_done 0 Sample.refusing Sample.pool 2
              (Sample.fresh Sample.accept None None))
    as (_ & Hdone & _ & Hterminal).
  - cbn. discriminate.
  - split; [exact Hdone | apply Hterminal; reflexivity].
Defined.

(** The scenario of the retries: with [max_submit = 2] and a backend that
    always reports EXIT, the first monitor leaves the node ready for another
    submission, and the second one fails it and calls the failure callback,
    once in all. *)
Example always_exit_fails_after_two_attempts :
  let s0 := Sample.fresh Sample.accept None None in
  let first := _job_monitor 5 (Sample.always JOB_QUEUE_EXIT) Sample.pool 2 s0 in
  let second :=
    _job_monitor 5 (Sample.always JOB_QUEUE_EXIT) Sample.pool 2 (snd first) in
  (fst first = Ok tt /\
   _thread_status (node (snd first)) = READY /\
   c_status (node (snd first)) = JOB_QUEUE_EXIT /\
   count_events is_exit_callback (trace (snd first)) = 0%nat) /\
  (fst second = Ok tt /\
   _thread_status (node (snd second)) = DONE /\
   c_status (node (snd second)) = JOB_QUEUE_FAILED /\
   c_submit_attempt (node (snd second)) = 2 /\
   count_events is_exit_callback (trace (snd second)) = 1%nat).
Proof. vm_compute. repeat split; reflexivity. Qed.

(** C5 as stated fails, in four ways.  In the first three passes no end
    time is on the node, a timeout callback is configured, the runtime
    condition holds once the job is polled and a kill is attempted, yet the
    node is not flagged as timed out: with a maximum runtime of 0 the timeout
    callback is not even called; a timeout callback that raises is called,
    and its exception ends the pass before the flag is set; and when the
    clock is set back between the poll and the second look at the runtime,
    the callback is not called either.  The fourth pass is one of a job that
    is run again, 30 passes into its second attempt: the end time of the
    first attempt is still on the node, the elapsed runtime, 31 seconds, has
    reached the maximum runtime of 5, the worker is not stopping, and no kill
    is attempted. *)
Lemma kill_without_timeout_flag :
  let driver := Sample.always JOB_QUEUE_RUNNING in
  (let s := Sample.monitored JOB_QUEUE_RUNNING (Some 0) (Some Sample.notify) in
   let polled := snd (_job_monitor_poll driver JOB_QUEUE_RUNNING s) in
   let out := _job_monitor_iteration driver JOB_QUEUE_RUNNING s in
   spec_runtime_condition (node polled) (clock polled (trace polled)) /\
   _end_time (node polled) = None /\
   callback_timeout (node polled) = Some Sample.notify /\
   fst out = Ok JOB_QUEUE_RUNNING /\
   _tried_killing (node (snd out)) = 1 /\
   count_events is_kill (trace (snd out)) = 1%nat /\
   _timed_out (node (snd out)) = false /\
   count_events is_timeout_callback (trace (snd out)) = 0%nat) /\
  (let s := Sample.overdue (Some 5) (Some Sample.broken) in
   let polled := snd (_job_monitor_poll driver JOB_QUEUE_RUNNING s) in
   let out := _job_monitor_iteration driver JOB_QUEUE_RUNNING s in
   spec_runtime_condition (node polled) (clock polled (trace polled)) /\
   _end_time (node polled) = None /\
   fst out = Raise OtherError /\
   count_events is_kill (trace (snd out)) = 1%nat /\
   count_events is_timeout_callback (trace (snd out)) = 1%nat /\
   _timed_out (node (snd out)) = false) /\
  (let s := Sample.rewinding (Some 5) (Some Sample.notify) in
   let polled := snd (_job_monitor_poll driver JOB_QUEUE_RUNNING s) in
   let out := _job_monitor_iteration driver JOB_QUEUE_RUNNING s in
   spec_runtime_condition (node polled) (clock polled (trace polled)) /\
   _end_time (node polled) = None /\
   clock polled (trace polled) = 997 /\
   clock polled (trace (at_second_look driver polled)) = 995 /\
   fst out = Ok JOB_QUEUE_RUNNING /\
   count_events is_kill (trace (snd out)) = 1%nat /\
   count_events is_timeout_callback (trace (snd out)) = 0%nat /\
   _timed_out (node (snd out)) = false) /\
  (let s := snd (_job_monitor_loop 30 Sample.flaky JOB_QUEUE_RUNNING
                   Retry.at_loop) in
   let polled := snd (_job_monitor_poll Sample.flaky JOB_QUEUE_RUNNING s) in
   let out := _job_monitor_iteration Sample.flaky JOB_QUEUE_RUNNING s in
   spec_runtime_condition (node polled) (clock polled (trace polled)) /\
   _max_runtime (node polled) = Some 5 /\
   spec_elapsed_runtime (node polled) (clock polled (trace polled)) = 31 /\
   _start_time (node polled) = Some 1002 /\
   _end_time (node polled) = Some 1002 /\
   _thread_status (node polled) = RUNNING /\
   fst out = Ok JOB_QUEUE_RUNNING /\
   count_events is_kill (trace (snd out))
     = count_events is_kill (trace polled) /\
   _tried_killing (node (snd out)) = 0 /\
   _timed_out (node (snd out)) = false).
Proof.
  cbv zeta. split; [|split; [|split]]; split.
  - exists 0. split; [reflexivity | vm_compute; discriminate].
  - vm_compute. repeat split; reflexivity.
  - exists 5. split; [reflexivity | vm_compute; discriminate].
  - vm_compute. repeat split; reflexivity.
  - exists 5. split; [reflexivity | vm_compute; discriminate].
  - vm_compute. repeat split; reflexivity.
  - exists 5. split; [reflexivity | vm_compute; discriminate].
  - vm_compute. repeat split; reflexivity.
Qed.

Lemma kill_policy_spec_witness :
  let driver := Sample.always JOB_QUEUE_RUNNING in
  let s := Sample.overdue (Some 5) (Some Sample.notify) in
  let out := _job_monitor_iteration driver JOB_QUEUE_RUNNING s in
  _end_time (node (snd out)) = None /\
  (count_events is_kill (trace (snd out)) = 1%nat /\
   _tried_killing (node (snd out)) = 1) /\
  (exists history,
      trace (snd out) = EvTimeoutCallback Sample.args :: history) /\
  fst out = Ok JOB_QUEUE_RUNNING /\
  _timed_out (node (snd out)) = true.
Proof.
  cbv zeta.
  pose (polled := snd (_job_monitor_poll (Sample.always JOB_QUEUE_RUNNING)
                         JOB_QUEUE_RUNNING
                         (Sample.overdue (Some 5) (Some Sample.notify)))).
  assert (Hreached :
            spec_runtime_condition (node polled) (clock polled (trace polled))).
  { exists 5. split; [reflexivity | vm_compute; discriminate]. }
  assert (Hlook :
            clock polled (trace polled)
            <= clock polled
                 (trace (at_second_look (Sample.always JOB_QUEUE_RUNNING)
                           polled))).
  { vm_compute. discriminate. }
  destruct (kill_policy_spec (Sample.always JOB_QUEUE_RUNNING) JOB_QUEUE_RUNNING
              (Sample.overdue (Some 5) (Some Sample.notify)) eq_refl eq_refl)
    as (Hend & Hkill & _ & Htimeout).
  split; [exact Hend|].
  split; [exact (Hkill (or_intror Hreached))|].
  destruct (Htimeout ltac:(cbn; discriminate) Hreached Hlook)
    as (history & Htr & _ & Hret & _).
  split; [exists history; exact Htr|].
  exact (Hret false eq_refl).
Defined.

(** C10 as stated fails.  A job that is pending for ever is never seen
    running.  With a maximum runtime of 0 the runtime condition kills it at
    every pass, although no stop is requested; with a negative one the node
    is flagged as timed out and the timeout callback called as well. *)
Lemma pending_job_killed_for_runtime :
  let driver := Sample.always JOB_QUEUE_PENDING in
  (let s := Sample.monitored JOB_QUEUE_PENDING (Some 0) (Some Sample.notify) in
   let out := _job_monitor_loop 3 driver JOB_QUEUE_PENDING s in
   _job_monitor_observed 3 driver JOB_QUEUE_PENDING s
     = [JOB_QUEUE_PENDING; JOB_QUEUE_PENDING; JOB_QUEUE_PENDING] /\
   _thread_status (node s) = RUNNING /\
   _start_time (node (snd out)) = None /\
   _tried_killing (node (snd out)) = 3 /\
   count_events is_kill (trace (snd out)) = 3%nat) /\
  (let s := Sample.monitored JOB_QUEUE_PENDING (Some (-1)) (Some Sample.notify) in
   let out := _job_monitor_loop 3 driver JOB_QUEUE_PENDING s in
   _job_monitor_observed 3 driver JOB_QUEUE_PENDING s
     = [JOB_QUEUE_PENDING; JOB_QUEUE_PENDING; JOB_QUEUE_PENDING] /\
   _start_time (node (snd out)) = None /\
   _timed_out (node s) = false /\
   _timed_out (node (snd out)) = true /\
   count_events is_timeout_callback (trace (snd out)) = 3%nat).
Proof. vm_compute. repeat split; reflexivity. Qed.

Lemma no_timeout_without_running_witness :
  let s := Sample.monitored JOB_QUEUE_PENDING (Some 5) (Some Sample.notify) in
  let s' := snd (_job_monitor_loop 3 (Sample.always JOB_QUEUE_PENDING)
                   JOB_QUEUE_PENDING s) in
  _start_time (node s') = None /\
  runtime s' = (Ok 0, s') /\
  _timed_out (node s') = false /\
  count_events is_timeout_callback (trace s') = 0%nat /\
  _tried_killing (node s') = 0 /\
  count_events is_kill (trace s') = 0%nat.
Proof.
  cbv zeta.
  destruct (no_timeout_without_running 3 (Sample.always JOB_QUEUE_PENDING)
              JOB_QUEUE_PENDING
              (Sample.monitored JOB_QUEUE_PENDING (Some 5) (Some Sample.notify)))
    as (Hstart & Hruntime & Hflag & Hcalls & Hkills).
  - reflexivity.
  - reflexivity.
  - cbn. intros m [= <-]. lia.
  - vm_compute. repeat constructor; discriminate.
  - destruct Hkills as [Htried Hcount]; [cbn; discriminate|].
    repeat split; assumption.
Defined.



(** ** The monitor at work *)

(** A job that is done and accepted by the success callback succeeds. *)
Example accepted_job_succeeds :
  let out := _job_monitor 5 (Sample.always JOB_QUEUE_DONE) Sample.pool 2
               (Sample.fresh Sample.accept None None) in
  fst out = Ok tt /\
  c_status (node (snd out)) = JOB_QUEUE_SUCCESS /\
  _thread_status (node (snd out)) = DONE /\
  rev (trace (snd out))
    = [EvSubmit SUBMIT_OK; EvUpdateStatus JOB_QUEUE_DONE; EvTime 1000;
       EvSemaAcquire Sample.pool; EvDoneCallback Sample.args;
       EvSemaRelease Sample.pool].
Proof. vm_compute. repeat split; reflexivity. Qed.

(** With a maximum runtime of 5 seconds and a backend that never leaves
    RUNNING, the monitor attempts its first kill at the pass that finds the
    job five seconds old, and the node is flagged as timed out. *)
Example running_job_times_out :
  let s := Sample.fresh Sample.accept (Some 5) (Some Sample.notify) in
  let driver := Sample.always JOB_QUEUE_RUNNING in
  let before := snd (_job_monitor 4 driver Sample.pool 2 s) in
  let after := snd (_job_monitor 5 driver Sample.pool 2 s) in
  (_tried_killing (node before) = 0 /\ _timed_out (node before) = false) /\
  (_tried_killing (node after) = 1 /\ _timed_out (node after) = true /\
   _start_time (node after) = Some 1000 /\
   clock after (trace after) = 1005 /\
   count_events is_timeout_callback (trace after) = 1%nat).
Proof. vm_compute. repeat split; reflexivity. Qed.

(** A running job whose node is stopped is killed, and its worker ends as
    done without any callback. *)
Example stopped_job_is_killed :
  let started := snd (run 10 Sample.killable Sample.pool 2
                        (Sample.fresh Sample.accept None None)) in
  let stopped := snd (stop started) in
  let out := wait_for 10 stopped in
  _thread_status (node stopped) = STOPPING /\
  fst out = Ok tt /\
  c_status (node (snd out)) = JOB_QUEUE_IS_KILLED /\
  _thread_status (node (snd out)) = DONE /\
  count_events is_done_callback (trace (snd out)) = 0%nat /\
  count_events is_exit_callback (trace (snd out)) = 0%nat.
Proof. vm_compute. repeat split; reflexivity. Qed.

(** * Further properties of the node *)

(** ** What the monitor keeps *)

Lemma monitor_keeps_refl (s : State) : monitor_keeps s s.
Proof. unfold monitor_keeps. repeat split; auto; lia. Qed.

Lemma monitor_keeps_trans (s1 s2 s3 : State) :
  monitor_keeps s1 s2 -> monitor_keeps s2 s3 -> monitor_keeps s1 s3.
Proof.
  unfold monitor_keeps.
  intros (Hc & Hm & (H1 & H2 & H3 & H4 & H5 & H6) & Hto & Hst & Hk)
         (Hc' & Hm' & (H1' & H2' & H3' & H4' & H5' & H6') & Hto' & Hst' & Hk').
  repeat split; try congruence; auto; lia.
Qed.

Lemma always_keeps_bind {A B} (m : M A) (k : A -> M B) :
  always_keeps m -> (forall a, always_keeps (k a)) -> always_keeps (bind m k).
Proof.
  intros Hm Hk s. unfold bind. specialize (Hm s).
  destruct (m s) as [[a| |e|] s1]; cbn [snd] in *; try assumption.
  eapply monitor_keeps_trans; [exact Hm | apply Hk].
Qed.

Lemma always_keeps_def (body : M unit) :
  always_keeps body -> always_keeps (def_ body).
Proof.
  intros Hb s. unfold def_. specialize (Hb s).
  destruct (body s) as [[a| |e|] s1]; assumption.
Qed.

Ltac keeps_done :=
  unfold monitor_keeps; py_unfold; count_run;
  repeat split; intros; auto; try congruence; try lia.

Lemma iteration_always_keeps (driver : Driver) (current_status : JobStatusType) :
  always_keeps (_job_monitor_iteration driver current_status).
Proof. intros s. destruct_state s. destruct t0; py_cases; keeps_done. Qed.

Lemma loop_always_keeps (fuel : nat) (driver : Driver)
    (current_status : JobStatusType) :
  always_keeps (_job_monitor_loop fuel driver current_status).
Proof.
  revert current_status.
  induction fuel as [|fuel IH]; intros current_status s.
  - apply monitor_keeps_refl.
  - cbn [_job_monitor_loop]. unfold bind at 1, is_running, bind, ret.
    destruct (in_running_statuses current_status); [|apply monitor_keeps_refl].
    pose proof (iteration_always_keeps driver current_status s) as Hit.
    unfold bind.
    destruct (_job_monitor_iteration driver current_status s) as [[cur'| |e|] s1];
      cbn [snd] in *; try assumption.
    eapply monitor_keeps_trans; [exact Hit | apply IH].
Qed.

Lemma exit_always_keeps (pool_sema : Semaphore) (max_submit : Z)
    (current_status : JobStatusType) :
  always_keeps (_job_monitor_exit pool_sema max_submit current_status).
Proof.
  intros s. destruct_state s.
  destruct current_status; py_cases; try keeps_done.
  all: destruct qs; py_cases; keeps_done.
Qed.

Lemma submit_always_keeps (driver : Driver) :
  always_keeps (_job_monitor_submit driver).
Proof.
  intros s. destruct_state s. py_unfold.
  destruct (drv_submit driver tr qs) as [outcome st]. py_cases; keeps_done.
Qed.

Lemma update_status_always_keeps (driver : Driver) :
  always_keeps (update_status driver).
Proof. intros s. destruct_state s. py_cases; keeps_done. Qed.

Lemma monitor_from_always_keeps (point : MonitorPoint) (fuel : nat)
    (driver : Driver) (pool_sema : Semaphore) (max_submit : Z) :
  always_keeps (_job_monitor_from point fuel driver pool_sema max_submit).
Proof.
  destruct point as [|current_status]; cbn [_job_monitor_from];
    unfold _job_monitor, _job_monitor_watch; apply always_keeps_def.
  - apply always_keeps_bind; [apply submit_always_keeps | intros _].
    apply always_keeps_bind; [apply update_status_always_keeps | intros _].
    apply always_keeps_bind; [intros s; apply monitor_keeps_refl | intros cur].
    apply always_keeps_bind; [apply loop_always_keeps | intros cur'].
    apply exit_always_keeps.
  - apply always_keeps_bind; [apply loop_always_keeps | intros cur'].
    apply exit_always_keeps.
Qed.

Lemma iteration_loop_calls (driver : Driver) (current_status : JobStatusType)
    (s : State) :
  loop_calls s (snd (_job_monitor_iteration driver current_status s)).
Proof.
  destruct_state s. unfold loop_calls.
  py_cases; py_unfold; count_run; repeat split; reflexivity.
Qed.

Lemma loop_loop_calls (fuel : nat) (driver : Driver)
    (current_status : JobStatusType) (s : State) :
  loop_calls s (snd (_job_monitor_loop fuel driver current_status s)).
Proof.
  revert current_status s.
  induction fuel as [|fuel IH]; intros current_status s.
  - repeat split; reflexivity.
  - cbn [_job_monitor_loop]. unfold bind at 1, is_running, bind, ret.
    destruct (in_running_statuses current_status);
      [|repeat split; reflexivity].
    pose proof (iteration_loop_calls driver current_status s) as Hit.
    unfold bind.
    destruct (_job_monitor_iteration driver current_status s) as [[cur'| |e|] s1];
      cbn [snd] in *; try assumption.
    specialize (IH cur' s1). unfold loop_calls in *.
    destruct Hit as (H1 & H2 & H3), IH as (H4 & H5 & H6).
    repeat split; congruence.
Qed.

Lemma exit_exit_calls (pool_sema : Semaphore) (max_submit : Z)
    (current_status : JobStatusType) (s : State) :
  exit_calls s (snd (_job_monitor_exit pool_sema max_submit current_status s)).
Proof.
  destruct_state s. unfold exit_calls.
  destruct current_status; py_cases; py_unfold; count_run;
    try (repeat split; lia).
  all: destruct qs; py_cases; py_unfold; count_run; repeat split; lia.
Qed.

(** ** Bookkeeping of a monitor run *)

(** X2.  Whatever a monitor does from any point on, with any fuel and however
    it ends, the count of kill attempts grows by the number of kill calls it
    makes to the driver. *)
Theorem tried_killing_counts_kill_calls (point : MonitorPoint) (fuel : nat)
    (driver : Driver) (pool_sema : Semaphore) (max_submit : Z) (s : State) :
  let s' := snd (_job_monitor_from point fuel driver pool_sema max_submit s) in
  _tried_killing (node s')
  = _tried_killing (node s)
    + (Z.of_nat (count_events is_kill (trace s'))
       - Z.of_nat (count_events is_kill (trace s))).
Proof.
  cbv zeta.
  destruct (monitor_from_always_keeps point fuel driver pool_sema max_submit s)
    as (_ & _ & _ & _ & _ & Hk).
  lia.
Qed.

(** X3.  A recorded start time is not recorded again: the monitor, from any
    point on, leaves a start time that is set as it is. *)
Theorem start_time_is_recorded_once (point : MonitorPoint) (fuel : nat)
    (driver : Driver) (pool_sema : Semaphore) (max_submit : Z) (s : State)
    (start_time : Z) :
  _start_time (node s) = Some start_time ->
  _start_time
    (node (snd (_job_monitor_from point fuel driver pool_sema max_submit s)))
  = Some start_time.
Proof.
  destruct (monitor_from_always_keeps point fuel driver pool_sema max_submit s)
    as (_ & _ & _ & _ & Hst & _).
  exact (Hst start_time).
Qed.

(** X1.  A whole monitor run submits the job once, neither more nor less,
    however it ends; it calls the success callback once at most and the
    failure callback once at most. *)
Theorem monitor_submits_once (fuel : nat) (driver : Driver)
    (pool_sema : Semaphore) (max_submit : Z) (s : State) :
  let s' := snd (_job_monitor fuel driver pool_sema max_submit s) in
  count_events is_submit (trace s') = S (count_events is_submit (trace s)) /\
  (count_events is_done_callback (trace s')
     <= S (count_events is_done_callback (trace s)))%nat /\
  (count_events is_exit_callback (trace s')
     <= S (count_events is_exit_callback (trace s)))%nat.
Proof.
  cbv zeta.
  remember (snd (_job_monitor fuel driver pool_sema max_submit s)) as final
    eqn:Hfinal.
  unfold _job_monitor, def_ in Hfinal.
  assert (Hsub : exists s1,
             (exists r, _job_monitor_submit driver s = (Ok r, s1)) /\
             count_events is_submit (trace s1)
               = S (count_events is_submit (trace s)) /\
             count_events is_done_callback (trace s1)
               = count_events is_done_callback (trace s) /\
             count_events is_exit_callback (trace s1)
               = count_events is_exit_callback (trace s)).
  { destruct_state s. py_unfold.
    destruct (drv_submit driver tr qs) as [outcome st].
    py_cases; eexists; (split; [eexists; reflexivity|]); py_unfold; count_run;
      repeat split; reflexivity. }
  destruct Hsub as (s1 & [[] Hrun] & Hs1 & Hd1 & He1).
  unfold bind at 1 in Hfinal. rewrite Hrun in Hfinal.
  assert (Hupd : exists s2,
             (exists r, update_status driver s1 = (Ok r, s2)) /\
             loop_calls s1 s2).
  { clear. destruct_state s1. unfold loop_calls.
    py_cases; eexists; (split; [eexists; reflexivity|]); py_unfold; count_run;
      repeat split; reflexivity. }
  destruct Hupd as (s2 & [[] Hupd] & Hs2 & Hd2 & He2).
  unfold _job_monitor_watch in Hfinal. unfold bind at 1 in Hfinal.
  rewrite Hupd in Hfinal.
  unfold bind at 1 in Hfinal.
  unfold status at 1, _get_status, get_node, bind, ret in Hfinal.
  pose proof (loop_loop_calls fuel driver (c_status (node s2)) s2)
    as (Hs3 & Hd3 & He3).
  destruct (_job_monitor_loop fuel driver (c_status (node s2)) s2)
    as [[cur| |e|] s3]; cbn [snd] in *; subst final;
    try (repeat split; lia).
  pose proof (exit_exit_calls pool_sema max_submit cur s3)
    as (Hs4 & Hd4 & Hd4' & He4 & He4').
  destruct (_job_monitor_exit pool_sema max_submit cur s3) as [[[]| |e|] s4];
    cbn [snd] in *; repeat split; lia.
Qed.

(** ** The timeout flag *)

Lemma wait_for_keeps (fuel : nat) (s : State) :
  monitor_keeps s (snd (wait_for fuel s)).
Proof.
  unfold wait_for, bind, get_node.
  destruct (_thread (node s)) as [tid|]; [|apply monitor_keeps_refl].
  unfold Thread_is_alive.
  destruct (threads s !! tid) as [t|] eqn:Hlook; [|apply monitor_keeps_refl].
  destruct (th_alive t) eqn:Halive; [|apply monitor_keeps_refl].
  unfold Thread_join. rewrite Hlook, Halive.
  pose proof (monitor_from_always_keeps (th_at t) fuel (th_driver t)
                (th_pool_sema t) (th_max_submit t) s) as Hkeeps.
  destruct (_job_monitor_from _ _ _ _ _ s) as [[[]| |e|] s1];
    cbn [snd] in *; exact Hkeeps.
Qed.

(** Apart from the worker status, the start time and the thread it holds,
    [run] leaves the node as the wait left it. *)
Lemma run_node (fuel : nat) (driver : Driver) (pool_sema : Semaphore)
    (max_submit : Z) (s : State) :
  let n := node (snd (wait_for fuel s)) in
  let n' := node (snd (run fuel driver pool_sema max_submit s)) in
  _timed_out n' = _timed_out n /\
  _end_time n' = _end_time n /\
  _tried_killing n' = _tried_killing n /\
  c_status n' = c_status n /\
  c_submit_attempt n' = c_submit_attempt n.
Proof.
  cbv zeta. destruct (wait_for fuel s) as [r w] eqn:Hw.
  destruct r as [[]| |e|].
  2-4: assert (Hrun : snd (run fuel driver pool_sema max_submit s) = w)
      by (unfold run, def_; unfold bind at 1; rewrite Hw; reflexivity);
    rewrite Hrun; repeat split; reflexivity.
  rewrite (run_after_wait _ _ _ _ _ _ Hw). cbn [snd].
  destruct (bool_decide (_thread_status (node w) = STOPPING));
    destruct_state w; repeat split; reflexivity.
Qed.

(** X4.  Nothing clears the timeout flag: once it is set it is still set after
    a monitor, from any point on and however it ends, after [stop] and after
    [run], so also for the next attempt of a job that is run again. *)
Theorem timed_out_is_never_cleared (point : MonitorPoint) (fuel : nat)
    (driver : Driver) (pool_sema : Semaphore) (max_submit : Z) (s : State) :
  _timed_out (node s) = true ->
  _timed_out
    (node (snd (_job_monitor_from point fuel driver pool_sema max_submit s)))
  = true /\
  _timed_out (node (snd (stop s))) = true /\
  _timed_out (node (snd (run fuel driver pool_sema max_submit s))) = true.
Proof.
  intros Hset. split; [|split].
  - destruct (monitor_from_always_keeps point fuel driver pool_sema max_submit s)
      as (_ & _ & _ & Hto & _).
    exact (Hto Hset).
  - destruct_state s. subst tmo. py_cases; destruct ts; py_cases; reflexivity.
  - destruct (run_node fuel driver pool_sema max_submit s) as (-> & _).
    destruct (wait_for_keeps fuel s) as (_ & _ & _ & Hto & _).
    exact (Hto Hset).
Qed.

(** ** The end of the loop *)

Lemma iteration_answer (driver : Driver) (current_status current_status' : JobStatusType)
    (s s' : State) :
  _job_monitor_iteration driver current_status s = (Ok current_status', s') ->
  current_status' = c_status (node s').
Proof.
  destruct (poll_ok driver current_status s) as (polled & Hpoll & _).
  rewrite (iteration_after_poll _ _ _ _ Hpoll).
  destruct (_job_monitor_kill_policy driver polled) as [[[]| |e|] s1];
    intros [= <- <-]. reflexivity.
Qed.

(** X5.  When the monitor loop is over, the status it ends with is none of
    PENDING, SUBMITTED, RUNNING and UNKNOWN. A loop that is entered with such
    a status ends with the queue status of the node; a loop entered with
    another one does nothing at all. *)
Theorem loop_ends_on_a_final_status (fuel : nat) (driver : Driver)
    (current_status current_status' : JobStatusType) (s s' : State) :
  _job_monitor_loop fuel driver current_status s = (Ok current_status', s') ->
  in_running_statuses current_status' = false /\
  (in_running_statuses current_status = true ->
   current_status' = c_status (node s')) /\
  (in_running_statuses current_status = false ->
   current_status' = current_status /\ s' = s).
Proof.
  revert current_status s.
  induction fuel as [|fuel IH]; intros current_status s; [discriminate|].
  cbn [_job_monitor_loop]. unfold bind at 1, is_running, bind, ret.
  destruct (in_running_statuses current_status) eqn:Hrun.
  - unfold bind.
    destruct (_job_monitor_iteration driver current_status s)
      as [[cur1| |e|] s1] eqn:Hit; try discriminate.
    intros Hloop. destruct (IH cur1 s1 Hloop) as (Hfinal & Hran & Hskipped).
    split; [exact Hfinal|]. split; [|discriminate].
    intros _. destruct (in_running_statuses cur1) eqn:Hrun1.
    + apply Hran. reflexivity.
    + destruct (Hskipped eq_refl) as [-> ->].
      exact (iteration_answer _ _ _ _ _ Hit).
  - intros [= <- <-]. split; [exact Hrun|]. split; [discriminate|auto].
Qed.

(** One pass for a job that the driver keeps reporting among PENDING,
    SUBMITTED, RUNNING and UNKNOWN. *)
Lemma iteration_keeps_polling (driver : Driver) (current_status : JobStatusType)
    (s : State) :
  (forall tr st, in_running_statuses (drv_poll driver tr st) = true) ->
  c_status (node s) <> JOB_QUEUE_WAITING ->
  _mutex (node s) = false ->
  (forall callback,
      callback_timeout (node s) = Some callback -> returns_normally callback) ->
  exists current_status' s',
    _job_monitor_iteration driver current_status s = (Ok current_status', s') /\
    in_running_statuses current_status' = true /\
    c_status (node s') <> JOB_QUEUE_WAITING /\
    _mutex (node s') = false /\
    callback_timeout (node s') = callback_timeout (node s) /\
    count_events is_done_callback (trace s')
      = count_events is_done_callback (trace s) /\
    count_events is_exit_callback (trace s')
      = count_events is_exit_callback (trace s).
Proof.
  intros Hpoll. destruct_state s. intros Hqs -> Hcb.
  assert (Hnw : forall tr st, drv_poll driver tr st <> JOB_QUEUE_WAITING).
  { intros tr' st Heq. specialize (Hpoll tr' st). rewrite Heq in Hpoll.
    discriminate. }
  destruct tcb as [cb|]; [specialize (Hcb cb eq_refl)|clear Hcb].
  all: destruct t0; py_cases; z_props; try congruence; try no_raise.
  all: do 2 eexists; (split; [reflexivity|]); py_unfold; count_run;
    repeat split; auto; exact (Hpoll _ _).
Qed.

(** X6.  The monitor does not give up on a job: as long as the driver reports
    one of PENDING, SUBMITTED, RUNNING and UNKNOWN at every poll, the loop
    does not end, whatever the fuel, and calls neither the success nor the
    failure callback. *)
Theorem loop_never_gives_up (fuel : nat) (driver : Driver)
    (current_status : JobStatusType) (s : State) :
  (forall tr st, in_running_statuses (drv_poll driver tr st) = true) ->
  in_running_statuses current_status = true ->
  c_status (node s) <> JOB_QUEUE_WAITING ->
  _mutex (node s) = false ->
  (forall callback,
      callback_timeout (node s) = Some callback -> returns_normally callback) ->
  let out := _job_monitor_loop fuel driver current_status s in
  fst out = Diverge /\
  count_events is_done_callback (trace (snd out))
    = count_events is_done_callback (trace s) /\
  count_events is_exit_callback (trace (snd out))
    = count_events is_exit_callback (trace s).
Proof.
  intros Hpoll. revert current_status s.
  induction fuel as [|fuel IH]; intros current_status s Hrun Hqs Hmx Hcb.
  - cbn. auto.
  - cbv zeta. cbn [_job_monitor_loop]. unfold bind at 1, is_running, bind, ret.
    rewrite Hrun. unfold bind.
    destruct (iteration_keeps_polling driver current_status s Hpoll Hqs Hmx Hcb)
      as (cur1 & s1 & Hit & Hrun1 & Hqs1 & Hmx1 & Hcb1 & Hd1 & He1).
    rewrite Hit.
    assert (Hcb' : forall callback,
               callback_timeout (node s1) = Some callback ->
               returns_normally callback)
      by (intros callback; rewrite Hcb1; apply Hcb).
    destruct (IH cur1 s1 Hrun1 Hqs1 Hmx1 Hcb') as (Hdiv & Hd & He).
    repeat split; congruence.
Qed.

(** ** How a monitor run ends *)

(** What follows the loop, entered with the lock free: the end time is the
    reading of the clock, the lock is free again, and the answer tells the
    worker and queue status. *)
Lemma exit_outcome (pool_sema : Semaphore) (max_submit : Z)
    (current_status : JobStatusType) (s : State) :
  _mutex (node s) = false ->
  let out := _job_monitor_exit pool_sema max_submit current_status s in
  let n' := node (snd out) in
  _end_time n' = Some (clock s (trace s)) /\
  _start_time n' = _start_time (node s) /\
  _mutex n' = false /\
  match fst out with
  | Ok _ =>
      _thread_status n' = DONE /\
      (c_status n' = JOB_QUEUE_SUCCESS \/ c_status n' = JOB_QUEUE_IS_KILLED
       \/ c_status n' = JOB_QUEUE_FAILED)
  | Return_ =>
      _thread_status n' = READY /\ c_status n' = JOB_QUEUE_EXIT /\
      c_submit_attempt n' < max_submit
  | Raise _ => True
  | Diverge => False
  end.
Proof.
  destruct_state s. intros ->. cbv zeta.
  destruct current_status; py_cases; z_props; try (repeat split; auto; fail).
  all: destruct qs; py_cases; z_props; repeat split; auto.
Qed.

(** The loop holds no [return]. *)
Lemma iteration_no_return (driver : Driver) (current_status : JobStatusType)
    (s : State) :
  fst (_job_monitor_iteration driver current_status s) <> Return_.
Proof. destruct_state s. py_cases; discriminate. Qed.

Lemma loop_no_return (fuel : nat) (driver : Driver)
    (current_status : JobStatusType) (s : State) :
  fst (_job_monitor_loop fuel driver current_status s) <> Return_.
Proof.
  revert current_status s.
  induction fuel as [|fuel IH]; intros current_status s; [discriminate|].
  cbn [_job_monitor_loop]. unfold bind at 1, is_running, bind, ret.
  destruct (in_running_statuses current_status); [|discriminate].
  unfold bind.
  pose proof (iteration_no_return driver current_status s) as Hit.
  destruct (_job_monitor_iteration driver current_status s) as [[cur'| |e|] s1];
    cbn [fst] in *; try discriminate; [apply IH | congruence].
Qed.

Lemma loop_then_exit (fuel : nat) (driver : Driver) (pool_sema : Semaphore)
    (max_submit : Z) (current_status : JobStatusType) (s : State) :
  _mutex (node s) = false ->
  let out :=
    def_ (current_status' <- _job_monitor_loop fuel driver current_status ;;
          _job_monitor_exit pool_sema max_submit current_status')%py s in
  let n' := node (snd out) in
  fst out = Ok tt ->
  _mutex n' = false /\
  (exists end_time, _end_time n' = Some end_time) /\
  ((_thread_status n' = DONE /\
    (c_status n' = JOB_QUEUE_SUCCESS \/ c_status n' = JOB_QUEUE_IS_KILLED
     \/ c_status n' = JOB_QUEUE_FAILED)) \/
   (_thread_status n' = READY /\ c_status n' = JOB_QUEUE_EXIT /\
    c_submit_attempt n' < max_submit)).
Proof.
  intros Hmx. cbv zeta. unfold def_, bind.
  destruct (loop_always_keeps fuel driver current_status s) as (_ & Hmx' & _).
  pose proof (loop_no_return fuel driver current_status s) as Hnr.
  destruct (_job_monitor_loop fuel driver current_status s) as [[cur'| |e|] s1];
    cbn [fst snd] in *; try discriminate; try congruence.
  rewrite Hmx in Hmx'.
  pose proof (exit_outcome pool_sema max_submit cur' s1 Hmx')
    as (Hend & _ & Hfree & Hout).
  cbv zeta in *.
  destruct (_job_monitor_exit pool_sema max_submit cur' s1) as [[[]| |e|] s2];
    cbn [fst snd] in *; try discriminate; intros _;
    (split; [exact Hfree|]); (split; [eexists; exact Hend|]); tauto.
Qed.

(** X7.  Whenever a monitor, from any point on, comes back normally with the
    lock free at its start, the lock is free again, the end time is recorded,
    and the worker is either DONE with the queue status SUCCESS, IS_KILLED or
    FAILED, or READY with the queue status EXIT and fewer submission attempts
    than [max_submit]. *)
Theorem monitor_return_states (point : MonitorPoint) (fuel : nat)
    (driver : Driver) (pool_sema : Semaphore) (max_submit : Z) (s : State) :
  _mutex (node s) = false ->
  let out := _job_monitor_from point fuel driver pool_sema max_submit s in
  let n' := node (snd out) in
  fst out = Ok tt ->
  _mutex n' = false /\
  (exists end_time, _end_time n' = Some end_time) /\
  ((_thread_status n' = DONE /\
    (c_status n' = JOB_QUEUE_SUCCESS \/ c_status n' = JOB_QUEUE_IS_KILLED
     \/ c_status n' = JOB_QUEUE_FAILED)) \/
   (_thread_status n' = READY /\ c_status n' = JOB_QUEUE_EXIT /\
    c_submit_attempt n' < max_submit)).
Proof.
  intros Hmx. destruct point as [|current_status]; cbn [_job_monitor_from].
  - destruct (submit_always_keeps driver s) as (_ & Hmx1 & _).
    assert (Hsub : exists s1, _job_monitor_submit driver s = (Ok tt, s1)).
    { clear. destruct_state s. py_unfold.
      destruct (drv_submit driver tr qs) as [outcome st].
      py_cases; eexists; reflexivity. }
    destruct Hsub as (s1 & Hsub). rewrite Hsub in Hmx1. cbn [snd] in Hmx1.
    destruct (update_status_always_keeps driver s1) as (_ & Hmx2 & _).
    assert (Hupd : exists s2, update_status driver s1 = (Ok tt, s2)).
    { clear. destruct_state s1. py_cases; eexists; reflexivity. }
    destruct Hupd as (s2 & Hupd). rewrite Hupd in Hmx2. cbn [snd] in Hmx2.
    assert (Hmx' : _mutex (node s2) = false) by congruence.
    pose proof (loop_then_exit fuel driver pool_sema max_submit
                  (c_status (node s2)) s2 Hmx') as Htail.
    assert (Heq : _job_monitor fuel driver pool_sema max_submit s
                  = def_ (current_status' <-
                            _job_monitor_loop fuel driver (c_status (node s2)) ;;
                          _job_monitor_exit pool_sema max_submit current_status')%py
                      s2).
    { unfold _job_monitor, _job_monitor_watch, def_. unfold bind at 1.
      rewrite Hsub. unfold bind at 1. rewrite Hupd. reflexivity. }
    rewrite Heq. exact Htail.
  - exact (loop_then_exit fuel driver pool_sema max_submit current_status s Hmx).
Qed.

(** X8.  In terminal handling entered with the queue status of the node, the
    failure callback is called, once, exactly when the node is FAILED at the
    end. *)
Theorem failure_callback_iff_failed (pool_sema : Semaphore) (max_submit : Z)
    (s : State) :
  _mutex (node s) = false ->
  let out := _job_monitor_terminal pool_sema max_submit (c_status (node s)) s in
  (c_status (node (snd out)) = JOB_QUEUE_FAILED ->
   count_events is_exit_callback (trace (snd out))
     = S (count_events is_exit_callback (trace s))) /\
  (c_status (node (snd out)) <> JOB_QUEUE_FAILED ->
   count_events is_exit_callback (trace (snd out))
     = count_events is_exit_callback (trace s)).
Proof.
  destruct_state s. intros ->. cbv zeta.
  destruct qs; py_cases; py_unfold; count_run; split; intros; congruence.
Qed.

(** ** Stopping and running *)

(** X10.  After a [stop], another [stop] changes nothing. *)
Theorem stop_twice (s : State) :
  _mutex (node s) = false ->
  fst (stop s) = Ok tt /\ stop (snd (stop s)) = (Ok tt, snd (stop s)).
Proof.
  destruct_state s. intros ->. destruct ts; split; reflexivity.
Qed.

(** X11.  On a node without a live thread whose worker is not STOPPING,
    whatever else its worker status, [run] sets the worker to RUNNING, clears
    the start time, and creates and starts one thread for [_job_monitor] with
    its three arguments; it changes nothing else: the end time, the timeout
    flag and the count of kill attempts of an earlier run are kept. *)
Theorem run_starts_one_monitor (fuel : nat) (driver : Driver)
    (pool_sema : Semaphore) (max_submit : Z) (s : State) :
  thread_known s ->
  all_threads_over s ->
  _thread_status (node s) <> STOPPING ->
  let tid := length (threads s) in
  run fuel driver pool_sema max_submit s =
    (Ok tt,
     mkState
       (with_thread (Some tid)
          (with_start_time None (with_thread_status RUNNING (node s))))
       (EvThreadStart tid :: trace s) (clock s)
       (threads s ++ [mkThread true AtEntry driver pool_sema max_submit])).
Proof.
  intros Hknown Hover Hts.
  rewrite (run_after_wait fuel _ _ _ s s (wait_for_idle fuel s Hknown Hover)).
  rewrite bool_decide_eq_false_2 by exact Hts. reflexivity.
Qed.

(** X12.  A [stop] before the start does not keep [run] from starting the job:
    on a node that is READY and has no live thread, [stop] followed by [run]
    leaves the worker RUNNING, with the queue status FAILED that [stop] has
    set, and one monitor thread alive. *)
Theorem run_after_stop_still_starts (fuel : nat) (driver : Driver)
    (pool_sema : Semaphore) (max_submit : Z) (s : State) :
  _mutex (node s) = false ->
  _thread_status (node s) = READY ->
  thread_known s ->
  all_threads_over s ->
  let out := run fuel driver pool_sema max_submit (snd (stop s)) in
  fst out = Ok tt /\
  _thread_status (node (snd out)) = RUNNING /\
  c_status (node (snd out)) = JOB_QUEUE_FAILED /\
  alive_threads (snd out) = 1%nat /\
  trace (snd out) = EvThreadStart (length (threads s)) :: trace s.
Proof.
  intros Hmx Hts Hknown Hover.
  assert (Hstop : snd (stop s)
                  = with_node (with_c_status JOB_QUEUE_FAILED
                                 (with_thread_status DONE (node s))) s).
  { destruct_state s. subst. reflexivity. }
  cbv zeta. rewrite Hstop.
  set (s1 := with_node _ s).
  assert (Hknown1 : thread_known s1).
  { intros tid Htid. apply (Hknown tid). destruct_state s. exact Htid. }
  assert (Hover1 : all_threads_over s1) by exact Hover.
  rewrite (run_after_wait fuel _ _ _ s1 s1 (wait_for_idle fuel s1 Hknown1 Hover1)).
  rewrite bool_decide_eq_false_2
    by (subst s1; destruct_state s; cbn; discriminate).
  cbv zeta. cbn [fst snd]. unfold alive_threads. cbn [threads].
  rewrite List.filter_app, length_app.
  pose proof (all_over_alive_threads s1 Hover1) as Hnone.
  unfold alive_threads in Hnone. rewrite Hnone.
  subst s1. destruct_state s. repeat split; reflexivity.
Qed.

(** ** The runtime once the monitor is back *)

Lemma iteration_start_not_later (driver : Driver)
    (current_status : JobStatusType) (s : State) :
  clock_monotone (clock s) ->
  start_not_later s ->
  start_not_later (snd (_job_monitor_iteration driver current_status s)).
Proof.
  unfold start_not_later. destruct_state s. intros Hmono Hst.
  destruct t0 as [st|]; [specialize (Hst st eq_refl)|clear Hst].
  all: py_cases; py_unfold; intros ? [= <-]; mono_facts Hmono; lia.
Qed.

Lemma loop_start_not_later (fuel : nat) (driver : Driver)
    (current_status : JobStatusType) (s : State) :
  clock_monotone (clock s) ->
  start_not_later s ->
  start_not_later (snd (_job_monitor_loop fuel driver current_status s)).
Proof.
  revert current_status s.
  induction fuel as [|fuel IH]; intros current_status s Hmono Hst; [exact Hst|].
  cbn [_job_monitor_loop]. unfold bind at 1, is_running, bind, ret.
  destruct (in_running_statuses current_status); [|exact Hst].
  pose proof (iteration_start_not_later driver current_status s Hmono Hst) as Hit.
  destruct (iteration_always_keeps driver current_status s) as (Hclk & _).
  unfold bind.
  destruct (_job_monitor_iteration driver current_status s) as [[cur'| |e|] s1];
    cbn [snd] in *; try assumption.
  apply IH; [rewrite Hclk; exact Hmono | exact Hit].
Qed.

Lemma submit_start_not_later (driver : Driver) (s : State) :
  clock_monotone (clock s) ->
  start_not_later s ->
  start_not_later (snd (_job_monitor_submit driver s)).
Proof.
  unfold start_not_later. destruct_state s. intros Hmono Hst. py_unfold.
  destruct (drv_submit driver tr qs) as [outcome st'].
  py_cases; py_unfold; intros st Heq; specialize (Hst st Heq);
    mono_facts Hmono; lia.
Qed.

Lemma update_status_start_not_later (driver : Driver) (s : State) :
  clock_monotone (clock s) ->
  start_not_later s ->
  start_not_later (snd (update_status driver s)).
Proof.
  unfold start_not_later. destruct_state s. intros Hmono Hst.
  py_cases; py_unfold; intros st Heq; specialize (Hst st Heq);
    mono_facts Hmono; lia.
Qed.

Lemma loop_then_exit_runtime (fuel : nat) (driver : Driver)
    (pool_sema : Semaphore) (max_submit : Z) (current_status : JobStatusType)
    (s : State) :
  _mutex (node s) = false ->
  clock_monotone (clock s) ->
  start_not_later s ->
  let out :=
    def_ (current_status' <- _job_monitor_loop fuel driver current_status ;;
          _job_monitor_exit pool_sema max_submit current_status')%py s in
  fst out = Ok tt ->
  exists r, runtime (snd out) = (Ok r, snd out) /\ 0 <= r.
Proof.
  intros Hmx Hmono Hst. cbv zeta. unfold def_, bind.
  destruct (loop_always_keeps fuel driver current_status s) as (_ & Hmx' & _).
  pose proof (loop_no_return fuel driver current_status s) as Hnr.
  pose proof (loop_start_not_later fuel driver current_status s Hmono Hst) as Hst'.
  destruct (_job_monitor_loop fuel driver current_status s) as [[cur'| |e|] s1];
    cbn [fst snd] in *; try discriminate; try congruence.
  rewrite Hmx in Hmx'.
  pose proof (exit_outcome pool_sema max_submit cur' s1 Hmx')
    as (Hend & Hstart & _ & _).
  cbv zeta in *.
  assert (Hfrozen : forall s2,
             _end_time (node s2) = Some (clock s1 (trace s1)) ->
             _start_time (node s2) = _start_time (node s1) ->
             exists r, runtime s2 = (Ok r, s2) /\ 0 <= r).
  { intros s2 He Hs. unfold runtime, bind, get_node, ret. rewrite Hs, He.
    destruct (_start_time (node s1)) as [st|] eqn:Hst1.
    - eexists. split; [reflexivity|]. specialize (Hst' st Hst1). lia.
    - eexists. split; [reflexivity|]. lia. }
  destruct (_job_monitor_exit pool_sema max_submit cur' s1) as [[[]| |e|] s2];
    cbn [fst snd] in *; try discriminate; intros _; apply Hfrozen; assumption.
Qed.

(** X9.  With a clock that does not run backwards, a monitor that is started
    with no start time later than the clock, such as none at all, and that
    comes back normally leaves a runtime that no longer reads the clock and is
    not negative. *)
Theorem runtime_is_frozen_after_monitor (point : MonitorPoint) (fuel : nat)
    (driver : Driver) (pool_sema : Semaphore) (max_submit : Z) (s : State) :
  _mutex (node s) = false ->
  clock_monotone (clock s) ->
  start_not_later s ->
  let out := _job_monitor_from point fuel driver pool_sema max_submit s in
  fst out = Ok tt ->
  exists r, runtime (snd out) = (Ok r, snd out) /\ 0 <= r.
Proof.
  intros Hmx Hmono Hst. destruct point as [|current_status];
    cbn [_job_monitor_from].
  - destruct (submit_always_keeps driver s) as (Hclk1 & Hmx1 & _).
    pose proof (submit_start_not_later driver s Hmono Hst) as Hst1.
    assert (Hsub : exists s1, _job_monitor_submit driver s = (Ok tt, s1)).
    { clear. destruct_state s. py_unfold.
      destruct (drv_submit driver tr qs) as [outcome st].
      py_cases; eexists; reflexivity. }
    destruct Hsub as (s1 & Hsub). rewrite Hsub in Hmx1, Hclk1, Hst1.
    cbn [snd] in *.
    assert (Hmono1 : clock_monotone (clock s1)) by (rewrite Hclk1; exact Hmono).
    destruct (update_status_always_keeps driver s1) as (Hclk2 & Hmx2 & _).
    pose proof (update_status_start_not_later driver s1 Hmono1 Hst1) as Hst2.
    assert (Hupd : exists s2, update_status driver s1 = (Ok tt, s2)).
    { clear. destruct_state s1. py_cases; eexists; reflexivity. }
    destruct Hupd as (s2 & Hupd). rewrite Hupd in Hmx2, Hclk2, Hst2.
    cbn [snd] in *.
    assert (Hmx' : _mutex (node s2) = false) by congruence.
    assert (Hmono2 : clock_monotone (clock s2)) by (rewrite Hclk2; exact Hmono1).
    pose proof (loop_then_exit_runtime fuel driver pool_sema max_submit
                  (c_status (node s2)) s2 Hmx' Hmono2 Hst2) as Htail.
    assert (Heq : _job_monitor fuel driver pool_sema max_submit s
                  = def_ (current_status' <-
                            _job_monitor_loop fuel driver (c_status (node s2)) ;;
                          _job_monitor_exit pool_sema max_submit current_status')%py
                      s2).
    { unfold _job_monitor, _job_monitor_watch, def_. unfold bind at 1.
      rewrite Hsub. unfold bind at 1. rewrite Hupd. reflexivity. }
    rewrite Heq. exact Htail.
  - exact (loop_then_exit_runtime fuel driver pool_sema max_submit
             current_status s Hmx Hmono Hst).
Qed.

(** * Properties of the simulation context *)

Lemma find_run_arg_first (wanted : Z) (before after : list (option Simulation.RunArg))
    (run_arg : Simulation.RunArg) :
  (forall other, In (Some other) before -> Simulation.iens other <> wanted) ->
  Simulation.iens run_arg = wanted ->
  Simulation.find_run_arg wanted (before ++ Some run_arg :: after) = Some run_arg.
Proof.
  intros Hbefore Hiens.
  induction before as [|[other|] before IH]; cbn [app Simulation.find_run_arg].
  - apply Z.eqb_eq in Hiens. rewrite Hiens. reflexivity.
  - assert (Hne : Simulation.iens other <> wanted)
      by (apply Hbefore; left; reflexivity).
    apply Z.eqb_neq in Hne. rewrite Hne.
    apply IH. intros o Ho. apply Hbefore. right. exact Ho.
  - apply IH. intros o Ho. apply Hbefore. right. exact Ho.
Qed.

Lemma find_run_arg_none (wanted : Z) (run_args : list (option Simulation.RunArg)) :
  (forall run_arg, In (Some run_arg) run_args -> Simulation.iens run_arg <> wanted) ->
  Simulation.find_run_arg wanted run_args = None.
Proof.
  induction run_args as [|[other|] rest IH]; intros Hnone;
    cbn [Simulation.find_run_arg]; [reflexivity| |].
  - assert (Hne : Simulation.iens other <> wanted)
      by (apply Hnone; left; reflexivity).
    apply Z.eqb_neq in Hne. rewrite Hne.
    apply IH. intros o Ho. apply Hnone. right. exact Ho.
  - apply IH. intros o Ho. apply Hnone. right. exact Ho.
Qed.

(** X13.  [get_run_args] answers the first run argument of the run context
    that carries the realization number asked for, and raises [KeyError] with
    that number exactly when there is none. *)
Theorem get_run_args_finds_the_first (self : Simulation.SimulationContext)
    (wanted : Z) :
  match Simulation.get_run_args self wanted with
  | Simulation.Returns run_arg =>
      Simulation.iens run_arg = wanted /\
      exists before after,
        Simulation._run_context self = before ++ Some run_arg :: after /\
        forall other, In (Some other) before -> Simulation.iens other <> wanted
  | Simulation.Raises e =>
      e = Simulation.KeyError wanted /\
      forall run_arg,
        In (Some run_arg) (Simulation._run_context self) ->
        Simulation.iens run_arg <> wanted
  end.
Proof.
  unfold Simulation.get_run_args.
  induction (Simulation._run_context self) as [|[other|] rest IH];
    cbn [Simulation.find_run_arg].
  - split; [reflexivity | intros run_arg []].
  - destruct (Simulation.iens other =? wanted) eqn:Heq.
    + apply Z.eqb_eq in Heq. split; [exact Heq|].
      exists [], rest. split; [reflexivity | intros o []].
    + apply Z.eqb_neq in Heq.
      destruct (Simulation.find_run_arg wanted rest) as [found|].
      * destruct IH as (Hiens & before & after & -> & Hbefore).
        split; [exact Hiens|].
        exists (Some other :: before), after. split; [reflexivity|].
        intros o [[= <-]|Ho]; [exact Heq | exact (Hbefore o Ho)].
      * destruct IH as (_ & Hnone). split; [reflexivity|].
        intros run_arg [[= <-]|Hin]; [exact Heq | exact (Hnone run_arg Hin)].
  - destruct (Simulation.find_run_arg wanted rest) as [found|].
    + destruct IH as (Hiens & before & after & -> & Hbefore).
      split; [exact Hiens|].
      exists (None :: before), after. split; [reflexivity|].
      intros o [Ho|Ho]; [discriminate | exact (Hbefore o Ho)].
    + destruct IH as (_ & Hnone). split; [reflexivity|].
      intros run_arg [Hin|Hin]; [discriminate | exact (Hnone run_arg Hin)].
Qed.

(** X14.  A realization that the run context does not hold: every question
    about it raises [KeyError] with its number, whatever the queue manager
    would answer. *)
Theorem unknown_realization_raises_key_error {ForwardModelStatus : Type}
    (load : string -> option ForwardModelStatus)
    (self : Simulation.SimulationContext) (wanted : Z) :
  (forall run_arg,
      In (Some run_arg) (Simulation._run_context self) ->
      Simulation.iens run_arg <> wanted) ->
  let e := Simulation.KeyError wanted in
  Simulation.get_run_args self wanted = Simulation.Raises e /\
  Simulation.didRealizationSucceed self wanted = Simulation.Raises e /\
  Simulation.didRealizationFail self wanted = Simulation.Raises e /\
  Simulation.isRealizationFinished self wanted = Simulation.Raises e /\
  Simulation.job_progress load self wanted = Simulation.Raises e /\
  Simulation.run_path self wanted = Simulation.Raises e /\
  Simulation.job_status self wanted = Simulation.Raises e.
Proof.
  intros Hnone. cbv zeta.
  assert (Hget : Simulation.get_run_args self wanted
                 = Simulation.Raises (Simulation.KeyError wanted)).
  { unfold Simulation.get_run_args.
    rewrite (find_run_arg_none wanted _ Hnone). reflexivity. }
  unfold Simulation.didRealizationFail, Simulation.didRealizationSucceed,
    Simulation.isRealizationFinished, Simulation.job_progress,
    Simulation.run_path, Simulation.job_status.
  rewrite Hget. repeat split; reflexivity.
Qed.

(** X15.  A realization that was not submitted, that is whose first run
    argument in the run context has no queue index: it is not finished, it has
    no job status and no progress, whatever the queue manager would answer,
    and the question whether it succeeded or failed raises [ValueError]. *)
Theorem unsubmitted_realization_answers {ForwardModelStatus : Type}
    (load : string -> option ForwardModelStatus)
    (self : Simulation.SimulationContext) (wanted : Z)
    (before after : list (option Simulation.RunArg))
    (run_arg : Simulation.RunArg) :
  Simulation._run_context self = before ++ Some run_arg :: after ->
  (forall other, In (Some other) before -> Simulation.iens other <> wanted) ->
  Simulation.iens run_arg = wanted ->
  Simulation.queue_index run_arg = None ->
  Simulation.isRealizationFinished self wanted = Simulation.Returns false /\
  Simulation.job_status self wanted = Simulation.Returns None /\
  Simulation.job_progress load self wanted = Simulation.Returns None /\
  Simulation.run_path self wanted
    = Simulation.Returns (Simulation.runpath run_arg) /\
  Simulation.didRealizationSucceed self wanted
    = Simulation.Raises (Simulation.ValueError "Queue index not set") /\
  Simulation.didRealizationFail self wanted
    = Simulation.Raises (Simulation.ValueError "Queue index not set").
Proof.
  intros Hctx Hbefore Hiens Hindex.
  assert (Hget : Simulation.get_run_args self wanted = Simulation.Returns run_arg).
  { unfold Simulation.get_run_args. rewrite Hctx.
    rewrite (find_run_arg_first wanted before after run_arg Hbefore Hiens).
    reflexivity. }
  unfold Simulation.didRealizationFail, Simulation.didRealizationSucceed,
    Simulation.isRealizationFinished, Simulation.job_progress,
    Simulation.run_path, Simulation.job_status.
  rewrite Hget, Hindex. repeat split; reflexivity.
Qed.

(** X16.  The two ways the context hands on the configured maximum runtime
    agree: [_run_forward_model] never passes 0, it passes no limit exactly
    when [set_max_job_duration] gets 0, and otherwise both pass the same
    number; converting the duration again gives the same limit. *)
Theorem max_runtime_encodings_agree (configured : option Z) :
  Simulation.forward_model_max_runtime configured <> Some 0 /\
  (Simulation.forward_model_max_runtime configured = None <->
   Simulation.max_job_duration configured = 0) /\
  (forall max_runtime,
      Simulation.forward_model_max_runtime configured = Some max_runtime ->
      Simulation.max_job_duration configured = max_runtime) /\
  Simulation.forward_model_max_runtime
    (Some (Simulation.max_job_duration configured))
  = Simulation.forward_model_max_runtime configured.
Proof.
  unfold Simulation.forward_model_max_runtime, Simulation.max_job_duration.
  destruct configured as [m|]; [destruct (m =? 0) eqn:Hm|];
    z_props; subst; cbn.
  - repeat split; intros; congruence.
  - apply Z.eqb_neq in Hm. rewrite Hm.
    apply Z.eqb_neq in Hm.
    repeat split; intros; try congruence.
  - repeat split; intros; congruence.
Qed.

(** X17.  A node that gets its maximum runtime from [_run_forward_model]: with
    a clock that does not run backwards, a timeout callback that returns and a
    worker that is not stopping, the kill policy of a pass flags the node as
    timed out whenever it attempts a kill, and leaves the node alone
    otherwise. *)
Theorem forward_model_kill_is_flagged (configured : option Z)
    (driver : Driver) (s : State) :
  _max_runtime (node s) = Simulation.forward_model_max_runtime configured ->
  _mutex (node s) = false ->
  _thread_status (node s) <> STOPPING ->
  clock_monotone (clock s) ->
  (forall callback,
      callback_timeout (node s) = Some callback -> returns_normally callback) ->
  let out := _job_monitor_kill_policy driver s in
  fst out = Ok tt /\
  (count_events is_kill (trace (snd out))
     = S (count_events is_kill (trace s)) /\
   _timed_out (node (snd out)) = true
   \/
   count_events is_kill (trace (snd out)) = count_events is_kill (trace s) /\
   node (snd out) = node s).
Proof.
  intros Hmr Hmx Hts Hmono Hcb. cbv zeta.
  pose proof (kill_policy_outcome driver s Hmx) as Hpolicy.
  cbv zeta in Hpolicy. destruct Hpolicy as (Hkill & Hnot & Htimeout).
  assert (Hnz : _max_runtime (node s) <> Some 0).
  { rewrite Hmr. unfold Simulation.forward_model_max_runtime.
    destruct configured as [m|]; [|discriminate].
    destruct (m =? 0) eqn:Hm; [discriminate|].
    apply Z.eqb_neq in Hm. congruence. }
  assert (Hdec : runtime_exceeded (node s) (clock s (trace s))
                 \/ ~ runtime_exceeded (node s) (clock s (trace s))).
  { unfold runtime_exceeded.
    destruct (_max_runtime (node s)) as [m|].
    - destruct (Z_le_gt_dec m (runtime_at (node s) (clock s (trace s))))
        as [Hle|Hgt].
      + left. exists m. auto.
      + right. intros (m' & [= <-] & Hle). lia.
    - right. intros (m' & Hm' & _). discriminate. }
  destruct Hdec as [Hex|Hnex].
  - destruct (Hkill (or_intror Hex)) as [Hcount _].
    specialize (Htimeout Hnz Hmono Hex).
    destruct (callback_timeout (node s)) as [cb|] eqn:Htcb.
    + destruct Htimeout as (_ & _ & Hret).
      destruct (Hret (Hcb cb eq_refl)) as [Hok Hflag]. auto.
    + destruct Htimeout as [Hok Hflag]. auto.
  - assert (Hn : ~ (_thread_status (node s) = STOPPING
                    \/ runtime_exceeded (node s) (clock s (trace s))))
      by tauto.
    destruct (Hnot Hn) as (Hok & Hcount & _ & Hnode). auto.
Qed.

(** ** The further properties at work on the samples *)

Lemma start_time_is_recorded_once_witness :
  _start_time
    (node (snd (_job_monitor_from (AtLoopHead JOB_QUEUE_RUNNING) 3
                  (Sample.always JOB_QUEUE_RUNNING) Sample.pool 2
                  (Sample.overdue (Some 5) None))))
  = Some 990.
Proof.
  apply (start_time_is_recorded_once (AtLoopHead JOB_QUEUE_RUNNING) 3
           (Sample.always JOB_QUEUE_RUNNING) Sample.pool 2
           (Sample.overdue (Some 5) None) 990).
  reflexivity.
Defined.

Lemma timed_out_is_never_cleared_witness :
  _timed_out
    (node (snd (_job_monitor_from AtEntry 5 (Sample.always JOB_QUEUE_DONE)
                  Sample.pool 2 Earlier.timed_out_node))) = true /\
  _timed_out (node (snd (stop Earlier.timed_out_node))) = true /\
  _timed_out
    (node (snd (run 5 (Sample.always JOB_QUEUE_DONE) Sample.pool 2
                  Earlier.timed_out_node))) = true.
Proof.
  apply (timed_out_is_never_cleared AtEntry 5 (Sample.always JOB_QUEUE_DONE)
           Sample.pool 2 Earlier.timed_out_node).
  reflexivity.
Defined.

Lemma loop_ends_on_a_final_status_witness :
  let out := _job_monitor_loop 5 (Sample.always JOB_QUEUE_DONE)
               JOB_QUEUE_RUNNING
               (Sample.monitored JOB_QUEUE_RUNNING None None) in
  fst out = Ok JOB_QUEUE_DONE /\
  in_running_statuses JOB_QUEUE_DONE = false /\
  JOB_QUEUE_DONE = c_status (node (snd out)).
Proof.
  cbv zeta. split; [vm_compute; reflexivity|].
  destruct (loop_ends_on_a_final_status 5 (Sample.always JOB_QUEUE_DONE)
              JOB_QUEUE_RUNNING JOB_QUEUE_DONE
              (Sample.monitored JOB_QUEUE_RUNNING None None)
              (snd (_job_monitor_loop 5 (Sample.always JOB_QUEUE_DONE)
                      JOB_QUEUE_RUNNING
                      (Sample.monitored JOB_QUEUE_RUNNING None None))))
    as (Hfinal & Hran & _).
  - vm_compute. reflexivity.
  - split; [exact Hfinal | apply Hran; reflexivity].
Defined.

Lemma loop_never_gives_up_witness :
  let out := _job_monitor_loop 4 (Sample.always JOB_QUEUE_UNKNOWN)
               JOB_QUEUE_UNKNOWN
               (Sample.monitored JOB_QUEUE_UNKNOWN None None) in
  fst out = Diverge /\
  count_events is_done_callback (trace (snd out)) = 0%nat /\
  count_events is_exit_callback (trace (snd out)) = 0%nat.
Proof.
  apply (loop_never_gives_up 4 (Sample.always JOB_QUEUE_UNKNOWN)
           JOB_QUEUE_UNKNOWN (Sample.monitored JOB_QUEUE_UNKNOWN None None)).
  - intros tr st. reflexivity.
  - reflexivity.
  - cbn. discriminate.
  - reflexivity.
  - cbn. discriminate.
Defined.

Lemma monitor_return_states_witness :
  let out := _job_monitor_from AtEntry 5 (Sample.always JOB_QUEUE_DONE)
               Sample.pool 2 (Sample.fresh Sample.reject None None) in
  _mutex (node (snd out)) = false /\
  (exists end_time, _end_time (node (snd out)) = Some end_time) /\
  ((_thread_status (node (snd out)) = DONE /\
    (c_status (node (snd out)) = JOB_QUEUE_SUCCESS
     \/ c_status (node (snd out)) = JOB_QUEUE_IS_KILLED
     \/ c_status (node (snd out)) = JOB_QUEUE_FAILED)) \/
   (_thread_status (node (snd out)) = READY /\
    c_status (node (snd out)) = JOB_QUEUE_EXIT /\
    c_submit_attempt (node (snd out)) < 2)).
Proof.
  apply (monitor_return_states AtEntry 5 (Sample.always JOB_QUEUE_DONE)
           Sample.pool 2 (Sample.fresh Sample.reject None None)).
  - reflexivity.
  - vm_compute. reflexivity.
Defined.

Lemma failure_callback_iff_failed_witness :
  count_events is_exit_callback
    (trace (snd (_job_monitor_terminal Sample.pool 2 JOB_QUEUE_EXIT
                   (Sample.finished JOB_QUEUE_EXIT 2 Sample.accept
                      Sample.notify)))) = 1%nat /\
  count_events is_exit_callback
    (trace (snd (_job_monitor_terminal Sample.pool 2 JOB_QUEUE_DONE
                   (Sample.finished JOB_QUEUE_DONE 1 Sample.accept
                      Sample.notify)))) = 0%nat.
Proof.
  split.
  - apply (proj1 (failure_callback_iff_failed Sample.pool 2
                    (Sample.finished JOB_QUEUE_EXIT 2 Sample.accept
                       Sample.notify) eq_refl)).
    vm_compute. reflexivity.
  - apply (proj2 (failure_callback_iff_failed Sample.pool 2
                    (Sample.finished JOB_QUEUE_DONE 1 Sample.accept
                       Sample.notify) eq_refl)).
    vm_compute. discriminate.
Defined.

Lemma stop_twice_witness :
  let s := Sample.monitored JOB_QUEUE_RUNNING None None in
  fst (stop s) = Ok tt /\ stop (snd (stop s)) = (Ok tt, snd (stop s)).
Proof. exact (stop_twice (Sample.monitored JOB_QUEUE_RUNNING None None) eq_refl). Defined.

Lemma fresh_threads (done_callback : Callback) (max_runtime : option Z)
    (timeout_callback : option Callback) :
  thread_known (Sample.fresh done_callback max_runtime timeout_callback) /\
  all_threads_over (Sample.fresh done_callback max_runtime timeout_callback).
Proof.
  split.
  - intros tid Htid. discriminate.
  - intros tid t Hlook. discriminate.
Qed.

Lemma run_starts_one_monitor_witness :
  let s := Sample.fresh Sample.accept None None in
  run 5 (Sample.always JOB_QUEUE_DONE) Sample.pool 2 s =
    (Ok tt,
     mkState
       (with_thread (Some 0%nat)
          (with_start_time None (with_thread_status RUNNING (node s))))
       [EvThreadStart 0] (clock s)
       [mkThread true AtEntry (Sample.always JOB_QUEUE_DONE) Sample.pool 2]).
Proof.
  cbv zeta.
  destruct (fresh_threads Sample.accept None None) as [Hknown Hover].
  apply (run_starts_one_monitor 5 (Sample.always JOB_QUEUE_DONE) Sample.pool 2
           (Sample.fresh Sample.accept None None) Hknown Hover).
  cbn. discriminate.
Defined.

Lemma run_after_stop_still_starts_witness :
  let s := Sample.fresh Sample.accept None None in
  let out := run 5 (Sample.always JOB_QUEUE_DONE) Sample.pool 2 (snd (stop s)) in
  fst out = Ok tt /\
  _thread_status (node (snd out)) = RUNNING /\
  c_status (node (snd out)) = JOB_QUEUE_FAILED /\
  alive_threads (snd out) = 1%nat /\
  trace (snd out) = [EvThreadStart 0].
Proof.
  cbv zeta.
  destruct (fresh_threads Sample.accept None None) as [Hknown Hover].
  exact (run_after_stop_still_starts 5 (Sample.always JOB_QUEUE_DONE)
           Sample.pool 2 (Sample.fresh Sample.accept None None)
           eq_refl eq_refl Hknown Hover).
Defined.

Lemma runtime_is_frozen_after_monitor_witness :
  let out := _job_monitor_from AtEntry 10 Sample.flaky Sample.pool 2
               (Sample.fresh Sample.accept (Some 5) None) in
  exists r, runtime (snd out) = (Ok r, snd out) /\ 0 <= r.
Proof.
  apply (runtime_is_frozen_after_monitor AtEntry 10 Sample.flaky Sample.pool 2
           (Sample.fresh Sample.accept (Some 5) None)).
  - reflexivity.
  - exact wall_clock_monotone.
  - intros start_time Hstart. discriminate.
  - vm_compute. reflexivity.
Defined.

Lemma unknown_realization_raises_key_error_witness :
  Simulation.get_run_args SampleContext.context 7
    = Simulation.Raises (Simulation.KeyError 7) /\
  Simulation.job_status SampleContext.context 7
    = Simulation.Raises (Simulation.KeyError 7).
Proof.
  destruct (unknown_realization_raises_key_error (fun path : string => Some path)
              SampleContext.context 7)
    as (Hget & _ & _ & _ & _ & _ & Hstatus).
  - intros run_arg [[= <-]|[Hin|[[= <-]|[]]]]; cbn; discriminate.
  - split; assumption.
Defined.

Lemma unsubmitted_realization_answers_witness :
  Simulation.isRealizationFinished SampleContext.context 1
    = Simulation.Returns false /\
  Simulation.job_status SampleContext.context 1 = Simulation.Returns None /\
  Simulation.didRealizationSucceed SampleContext.context 1
    = Simulation.Raises (Simulation.ValueError "Queue index not set").
Proof.
  destruct (unsubmitted_realization_answers (fun path : string => Some path)
              SampleContext.context 1
              [Some SampleContext.submitted_arg; None] []
              SampleContext.unsubmitted_arg)
    as (Hfinished & Hstatus & _ & _ & Hsucceeded & _).
  - reflexivity.
  - intros other [[= <-]|[Hin|[]]]; cbn; discriminate.
  - reflexivity.
  - reflexivity.
  - repeat split; assumption.
Defined.

Lemma max_runtime_encodings_agree_witness :
  Simulation.max_job_duration (Some 0) = 0 /\
  Simulation.max_job_duration (Some 5) = 5.
Proof.
  split.
  - apply (proj1 (proj1 (proj2 (max_runtime_encodings_agree (Some 0))))).
    reflexivity.
  - apply (proj1 (proj2 (proj2 (max_runtime_encodings_agree (Some 5))))).
    reflexivity.
Defined.

Lemma forward_model_kill_is_flagged_witness :
  let s := SampleContext.forward_model_node (Some 5) in
  let out := _job_monitor_kill_policy (Sample.always JOB_QUEUE_RUNNING) s in
  fst out = Ok tt /\
  (count_events is_kill (trace (snd out)) = S (count_events is_kill (trace s))
   /\ _timed_out (node (snd out)) = true
   \/
   count_events is_kill (trace (snd out)) = count_events is_kill (trace s)
   /\ node (snd out) = node s).
Proof.
  apply (forward_model_kill_is_flagged (Some 5)
           (Sample.always JOB_QUEUE_RUNNING)
           (SampleContext.forward_model_node (Some 5))).
  - reflexivity.
  - reflexivity.
  - cbn. discriminate.
  - exact wall_clock_monotone.
  - intros callback [= <-] tr args. exists false. reflexivity.
Defined.
